(** * dugaire: Dockerfile composition, image build and image listing

    A shallow embedding of [src/dugaire/dugaire.py].  The two click commands
    [build] and [list_] are translated statement by statement; the calls that
    leave the process (the Docker client, [uuid.uuid4], standard output) are
    threaded through an explicit [World] by a small state-and-exception monad.

    The module [util] and the Jinja templates it loads ([base.j2], [apt.j2],
    [pip3.j2], [with_kubectl.j2]) are not among the sources at hand.  They
    enter the development as the record [Util], a parameter of both
    commands; what the specification says of a template is stated as a
    property of that parameter and assumed only where a claim speaks of the
    rendered text of that template.

    Strings: a Python [str] is modelled by [string]; every literal of the
    program is ASCII. *)

From Stdlib Require Import String Ascii List Bool Arith NArith Lia Sorted FinFun.
Import ListNotations.
Open Scope string_scope.

(* ================================================================= *)
(** * Python string primitives *)

Module Py.

(** Truthiness of an optional click string option, as tested by [if apt:]:
    [None] and the empty string are false. *)
Definition truthy (o : option string) : bool :=
  match o with
  | None => false
  | Some s => negb (s =? "")
  end.

(** [needle in hay]. *)
Fixpoint contains (needle hay : string) : bool :=
  prefix needle hay
  || match hay with
     | EmptyString => false
     | String _ hay' => contains needle hay'
     end.

(** [s[n:]]. *)
Fixpoint drop (n : nat) (s : string) : string :=
  match n, s with
  | O, _ => s
  | S _, EmptyString => EmptyString
  | S n', String _ s' => drop n' s'
  end.

(** [s[:n]]. *)
Definition take (n : nat) (s : string) : string := substring 0 n s.

(** [s[a:b]] for [a <= b]. *)
Definition slice (a b : nat) (s : string) : string := substring a (b - a) s.

(** [s.replace('', new)]: [new] goes before every character and at the end. *)
Fixpoint intersperse (new s : string) : string :=
  match s with
  | EmptyString => new
  | String c s' => new ++ String c (intersperse new s')
  end.

(** The left-to-right scan of [s.replace(old, new)] for a non-empty [old];
    [skip] counts the characters of a match still to be passed over. *)
Fixpoint replace_from (old new : string) (skip : nat) (s : string) : string :=
  match s with
  | EmptyString => EmptyString
  | String c s' =>
      match skip with
      | S k => replace_from old new k s'
      | O =>
          if prefix old s
          then new ++ replace_from old new (String.length old - 1) s'
          else String c (replace_from old new 0 s')
      end
  end.

(** [s.replace(old, new)]: every non-overlapping occurrence, from the left. *)
Definition replace (old new s : string) : string :=
  if old =? "" then intersperse new s else replace_from old new 0 s.

(** [sep.join(l)] is [String.concat]. *)
Definition join (sep : string) (l : list string) : string := String.concat sep l.

(** [s.split(c)] for a one-character separator [c]: never the empty list. *)
Fixpoint split (c : ascii) (s : string) : list string :=
  match s with
  | EmptyString => [EmptyString]
  | String a s' =>
      if Ascii.eqb a c then EmptyString :: split c s'
      else match split c s' with
           | [] => [String a EmptyString]
           | w :: ws => String a w :: ws
           end
  end.

(** Every character of [s] satisfies [p]. *)
Fixpoint all_chars (p : ascii -> bool) (s : string) : bool :=
  match s with
  | EmptyString => true
  | String c s' => p c && all_chars p s'
  end.

(** Character-wise map. *)
Fixpoint map_chars (f : ascii -> ascii) (s : string) : string :=
  match s with
  | EmptyString => EmptyString
  | String c s' => String (f c) (map_chars f s')
  end.

(** [c] with every [a] turned into [b]. *)
Definition subst_char (a b c : ascii) : ascii := if Ascii.eqb c a then b else c.

(** [c] does not occur in [s]. *)
Definition free_of (c : ascii) (s : string) : bool :=
  all_chars (fun x => negb (Ascii.eqb x c)) s.

End Py.

(* ================================================================= *)
(** * [uuid.uuid4] and [str] of a UUID (Python standard library) *)

Module Uuid.

Definition hex_digit (d : N) : ascii :=
  match d with
  | 0 => "0" | 1 => "1" | 2 => "2" | 3 => "3" | 4 => "4" | 5 => "5"
  | 6 => "6" | 7 => "7" | 8 => "8" | 9 => "9" | 10 => "a" | 11 => "b"
  | 12 => "c" | 13 => "d" | 14 => "e" | _ => "f"
  end%N%char.

(** The [digits] low hexadecimal digits of [v], most significant first:
    ['%032x' % v] when [digits = 32] and [v < 2^128]. *)
Fixpoint hex_fixed (digits : nat) (v : N) : string :=
  match digits with
  | O => EmptyString
  | S d => hex_fixed d (v / 16)%N ++ String (hex_digit (v mod 16)%N) EmptyString
  end.

(** [UUID(bytes=b, version=4).int] for the sixteen bytes [b] read as a
    big-endian integer [r]: the variant and version bits are forced. *)
Definition uuid4_int (r : N) : N :=
  let int := (r mod 2 ^ 128)%N in
  let int := N.ldiff int (N.shiftl 0xc000 48)%N in
  let int := N.lor int (N.shiftl 0x8000 48)%N in
  let int := N.ldiff int (N.shiftl 0xf000 64)%N in
  N.lor int (N.shiftl 4 76)%N.

(** [str(u)]: the 32 hex digits in groups 8-4-4-4-12. *)
Definition str (u : N) : string :=
  let hex := hex_fixed 32 u in
  Py.take 8 hex ++ "-" ++ Py.slice 8 12 hex ++ "-" ++ Py.slice 12 16 hex
  ++ "-" ++ Py.slice 16 20 hex ++ "-" ++ Py.drop 20 hex.

Definition is_hex (c : ascii) : bool :=
  let n := nat_of_ascii c in
  (((48 <=? n) && (n <=? 57)) || ((97 <=? n) && (n <=? 102)))%nat.

End Uuid.

(* ================================================================= *)
(** * The world outside the process *)

(** Exceptions that reach the top of a command. *)
Inductive exn : Type :=
| DockerError (msg : string)  (* any [docker.errors] exception *)
| IndexError.                 (* [l[0]] on an empty list *)

(** A [docker.models.images.Image], reduced to the two attributes read. *)
Record Image : Type := mkImage {
  attrs_Id : string;
  attrs_RepoTags : list string
}.

(** [image.id] and [image.tags] of docker-py: the identifier attribute, and
    the repository tags without dangling entries. *)
Definition Image_id (image : Image) : string := attrs_Id image.

Definition Image_tags (image : Image) : list string :=
  filter (fun tag => negb (tag =? "<none>:<none>")) (attrs_RepoTags image).

(** The daemon as seen through the client: what each call answers. *)
Record Docker : Type := mkDocker {
  from_env_result : option exn;
  images_build_result : string -> string -> exn + Image;
  images_list_result : list string -> exn + list Image
}.

(** Every call that leaves the process, in program order. *)
Inductive Event : Type :=
| EvFromEnv
| EvUuid4 (u : N)
| EvImagesBuild (fileobj tag : string)
| EvImagesList (label : list string)
| EvEcho (message : option string)
| EvPrint (text : string).

Record World : Type := mkWorld {
  urandom16 : nat -> N;   (* the successive results of [os.urandom(16)] *)
  drawn : nat;            (* how many of them were consumed *)
  docker : Docker;
  events : list Event
}.

Inductive Outcome (A : Type) : Type :=
| Ok (a : A)
| Raise (e : exn).
Arguments Ok {A} a.
Arguments Raise {A} e.

Definition M (A : Type) : Type := World -> Outcome A * World.

Definition ret {A} (a : A) : M A := fun w => (Ok a, w).

Definition bind {A B} (m : M A) (k : A -> M B) : M B :=
  fun w =>
    match m w with
    | (Ok a, w') => k a w'
    | (Raise e, w') => (Raise e, w')
    end.

Definition raise {A} (e : exn) : M A := fun w => (Raise e, w).

Declare Scope py_scope.
Delimit Scope py_scope with py.
Notation "x <- m ;; k" := (bind m (fun x => k))
  (at level 61, m at next level, right associativity) : py_scope.
Notation "m ;; k" := (bind m (fun _ => k))
  (at level 61, right associativity) : py_scope.
Open Scope py_scope.

Definition emit (ev : Event) : M unit :=
  fun w => (Ok tt, mkWorld (urandom16 w) (drawn w) (docker w) (events w ++ [ev])).

Definition of_result {A} (r : exn + A) : M A :=
  match r with
  | inl e => raise e
  | inr a => ret a
  end.

(** [docker.from_env()]. *)
Definition docker_from_env : M unit :=
  emit EvFromEnv ;;
  fun w => match from_env_result (docker w) with
           | Some e => (Raise e, w)
           | None => (Ok tt, w)
           end.

(** [client.images.build(fileobj=f, tag=tag)], keeping the image of the
    returned pair. *)
Definition client_images_build (fileobj tag : string) : M Image :=
  emit (EvImagesBuild fileobj tag) ;;
  fun w => of_result (images_build_result (docker w) fileobj tag) w.

(** [client.images.list(filters={"label": label})]. *)
Definition client_images_list (label : list string) : M (list Image) :=
  emit (EvImagesList label) ;;
  fun w => of_result (images_list_result (docker w) label) w.

(** [uuid.uuid4()]: sixteen fresh random bytes. *)
Definition uuid_uuid4 : M N :=
  fun w =>
    let u := Uuid.uuid4_int (urandom16 w (drawn w)) in
    (Ok u, mkWorld (urandom16 w) (S (drawn w)) (docker w) (events w ++ [EvUuid4 u])).

(** [click.echo(message)]; [None] prints an empty line. *)
Definition click_echo (message : option string) : M unit := emit (EvEcho message).

(** [print(text)]. *)
Definition print (text : string) : M unit := emit (EvPrint text).

(** [l[0]]. *)
Definition index0 (l : list string) : M string :=
  match l with
  | [] => raise IndexError
  | x :: _ => ret x
  end.

(** Run a command from a world and keep what the world saw. *)
Definition run {A} (m : M A) (w : World) : list Event := events (snd (m w)).

Definition outcome {A} (m : M A) (w : World) : Outcome A := fst (m w).

(** A process that has just started: nothing drawn, nothing done. *)
Definition boot (rnd : nat -> N) (d : Docker) : World := mkWorld rnd 0 d [].

(** The world [w] after [new] further events, with [n] random draws used. *)
Definition after (w : World) (n : nat) (new : list Event) : World :=
  mkWorld (urandom16 w) n (docker w) (events w ++ new).

(** The Dockerfile texts submitted to the daemon, and the tags they carried. *)
Definition submitted (evs : list Event) : list (string * string) :=
  flat_map (fun ev => match ev with
                      | EvImagesBuild f t => [(f, t)]
                      | _ => []
                      end) evs.

(** Every Dockerfile text that leaves the process: handed to the daemon or
    written to standard output by [click.echo]. *)
Definition dockerfile_texts (evs : list Event) : list (option string) :=
  flat_map (fun ev => match ev with
                      | EvImagesBuild f _ => [Some f]
                      | EvEcho m => [m]
                      | _ => []
                      end) evs.

(** The calls that reach the container runtime. *)
Definition is_docker_call (ev : Event) : bool :=
  match ev with
  | EvFromEnv | EvImagesBuild _ _ | EvImagesList _ => true
  | _ => false
  end.

Definition is_uuid_draw (ev : Event) : bool :=
  match ev with
  | EvUuid4 _ => true
  | _ => false
  end.

(** Events that only write to standard output. *)
Definition is_output (ev : Event) : bool :=
  match ev with
  | EvEcho _ | EvPrint _ => true
  | _ => false
  end.

(* ================================================================= *)
(** * The module [util] *)

(** Keyword arguments of [template.render]. *)
Definition kwargs : Type := list (string * string).

(** A loaded Jinja template is its [render] method. *)
Definition Template : Type := kwargs -> string.

Definition render (template : Template) (kw : kwargs) : string := template kw.

(** A table row of [list_]: [[image_id, image_tag]]. *)
Definition row : Type := (string * list string)%type.

(** Modelled from the spec: the module [util] ([get_template] with the four
    template files, [get_dugaire_image_label], [custom_tabulate]) is absent
    from the sources; its three functions are taken as they are called. *)
Record Util : Type := mkUtil {
  get_template : string -> Template;
  get_dugaire_image_label : option string -> string;
  custom_tabulate : list row -> list string -> string
}.

(* ================================================================= *)
(** * dugaire.py *)

(** ** click option defaults *)

Definition from_default : string := "ubuntu:18.04".
Definition name_default : string := "random".
Definition dry_run_default : bool := false.
Definition output_default : string := "image-id".
Definition short_default : bool := true.

(** [if o: then_(o) else: else_], for an option that is [None] or a string. *)
Definition if_truthy {A} (o : option string) (then_ : string -> A) (else_ : A) : A :=
  match o with
  | Some s => if s =? "" then else_ else then_ s
  | None => else_
  end.

Definition kubectl_latest_url : string :=
  "https://storage.googleapis.com/kubernetes-release/release/$(curl -s https://storage.googleapis.com/kubernetes-release/release/stable.txt)/bin/linux/amd64/kubectl".

(** Lines 110-112: the [url] handed to [with_kubectl.j2]. *)
Definition kubectl_url (with_kubectl : string) : string :=
  let url := kubectl_latest_url in
  if negb (with_kubectl =? "latest")
  then "https://storage.googleapis.com/kubernetes-release/release/v"
       ++ with_kubectl ++ "/bin/linux/amd64/kubectl"
  else url.

Section Commands.

Variable util : Util.

(** Lines 94-115 of [build]: the local [dockerfile], grown by [+=]. *)
Definition build_dockerfile (from_ : string) (apt pip3 with_kubectl : option string)
  : string :=
  let dockerfile := "" in
  let template := get_template util "base.j2" in
  let dockerfile :=
    dockerfile ++ render template
      [("from_", from_); ("label", get_dugaire_image_label util (Some "dockerfile"))] in
  let dockerfile :=
    if_truthy apt (fun apt =>
      let packages := Py.replace "," " " apt in
      let template := get_template util "apt.j2" in
      dockerfile ++ render template [("packages", packages)]) dockerfile in
  let dockerfile :=
    if_truthy pip3 (fun pip3 =>
      let packages := Py.replace "," " " pip3 in
      let template := get_template util "pip3.j2" in
      dockerfile ++ render template [("packages", packages)]) dockerfile in
  let dockerfile :=
    if_truthy with_kubectl (fun with_kubectl =>
      let url := kubectl_url with_kubectl in
      let template := get_template util "with_kubectl.j2" in
      dockerfile ++ render template [("url", url)]) dockerfile in
  dockerfile.

(** The same statements with every [+=] kept apart: each rendered fragment
    next to the name of the template that produced it. *)
Definition build_pieces (from_ : string) (apt pip3 with_kubectl : option string)
  : list (string * string) :=
  let dockerfile := [] in
  let template := get_template util "base.j2" in
  let dockerfile :=
    (dockerfile ++ [("base.j2", render template
      [("from_", from_); ("label", get_dugaire_image_label util (Some "dockerfile"))])])%list in
  let dockerfile :=
    if_truthy apt (fun apt =>
      let packages := Py.replace "," " " apt in
      let template := get_template util "apt.j2" in
      (dockerfile ++ [("apt.j2", render template [("packages", packages)])])%list)
      dockerfile in
  let dockerfile :=
    if_truthy pip3 (fun pip3 =>
      let packages := Py.replace "," " " pip3 in
      let template := get_template util "pip3.j2" in
      (dockerfile ++ [("pip3.j2", render template [("packages", packages)])])%list)
      dockerfile in
  let dockerfile :=
    if_truthy with_kubectl (fun with_kubectl =>
      let url := kubectl_url with_kubectl in
      let template := get_template util "with_kubectl.j2" in
      (dockerfile ++ [("with_kubectl.j2", render template [("url", url)])])%list)
      dockerfile in
  dockerfile.

(** Lines 123-126: the name of an image built without [--name]. *)
Definition random_image_name : M string :=
  u1 <- uuid_uuid4 ;;
  let random_name := Py.take 8 (Uuid.str u1) in
  u2 <- uuid_uuid4 ;;
  let random_tag := Py.take 8 (Uuid.str u2) in
  ret ("dug-" ++ random_name ++ ":" ++ random_tag).

(** The command [build].  [dockerfile.encode('utf-8')] is the text itself. *)
Definition build (from_ : string) (apt pip3 with_kubectl : option string)
    (name : string) (dry_run : bool) (output : string) : M unit :=
  let dockerfile := build_dockerfile from_ apt pip3 with_kubectl in
  ids <-
    (if negb dry_run then
       let f := dockerfile in
       docker_from_env ;;
       let image_name := name in
       image_name <-
         (if image_name =? "random" then random_image_name else ret image_name) ;;
       image <- client_images_build f image_name ;;
       let image_id := attrs_Id image in
       image_name <- index0 (attrs_RepoTags image) ;;
       ret (Some image_id, Some image_name)
     else ret (None, None)) ;;
  let image_id := fst ids in
  let image_name := snd ids in
  (if output =? "image-id" then click_echo image_id else ret tt) ;;
  (if output =? "image-name" then click_echo image_name else ret tt) ;;
  (if output =? "dockerfile" then click_echo (Some dockerfile) else ret tt).

(** Line 158: the identifier shown by [list_]. *)
Definition shown_id (short : bool) (image_id : string) : string :=
  if short then Py.take 12 (Py.replace "sha256:" "" image_id) else image_id.

Definition none_found : string := "No images built with dugaire found.".

(** The command [list]. *)
Definition list_ (short : bool) : M unit :=
  docker_from_env ;;
  images <- client_images_list [get_dugaire_image_label util None] ;;
  let print_images :=
    fold_left (fun (print_images : list row) image =>
                 let image_id := Image_id image in
                 let image_id := shown_id short image_id in
                 let image_tag := Image_tags image in
                 print_images ++ [(image_id, image_tag)])%list
              images [] in
  if negb (List.length print_images =? 0)%nat
  then print (custom_tabulate util print_images ["Image ID"; "Image tags"])
  else click_echo (Some none_found).

End Commands.

(* ================================================================= *)
(** * What a run of [build] leaves behind *)

(** What [build] echoes at the end, given the identifiers it holds. *)
Definition outputs (output : string) (image_id image_name : option string)
    (dockerfile : string) : list Event :=
  ((if output =? "image-id" then [EvEcho image_id] else [])
   ++ (if output =? "image-name" then [EvEcho image_name] else [])
   ++ (if output =? "dockerfile" then [EvEcho (Some dockerfile)] else []))%list.

(** The two UUIDs a world hands out next. *)
Definition next_uuid (w : World) (i : nat) : N :=
  Uuid.uuid4_int (urandom16 w (drawn w + i)).

(** The tag [build] submits: drawn when [name] is the sentinel. *)
Definition submitted_tag (name : string) (w : World) : string :=
  if name =? "random"
  then "dug-" ++ Py.take 8 (Uuid.str (next_uuid w 0)) ++ ":"
       ++ Py.take 8 (Uuid.str (next_uuid w 1))
  else name.

Definition name_draws (name : string) (w : World) : list Event :=
  if name =? "random" then [EvUuid4 (next_uuid w 0); EvUuid4 (next_uuid w 1)] else [].

Definition drawn_after (name : string) (w : World) : nat :=
  if name =? "random" then drawn w + 2 else drawn w.

(** The calls of a build that reaches the daemon, up to the submission. *)
Definition build_calls (name dockerfile : string) (w : World) : list Event :=
  ([EvFromEnv] ++ name_draws name w
   ++ [EvImagesBuild dockerfile (submitted_tag name w)])%list.

(** The shape of a generated tag: [dug-], eight characters, a colon, eight
    characters, both runs of eight being hex digits. *)
Definition tag_shape (tag : string) : Prop :=
  exists s1 s2,
    tag = "dug-" ++ s1 ++ ":" ++ s2
    /\ String.length s1 = 8 /\ String.length s2 = 8
    /\ Py.all_chars Uuid.is_hex s1 = true /\ Py.all_chars Uuid.is_hex s2 = true.

(* ================================================================= *)
(** * The specification's own words *)

(** The four kinds of fragment, in the order the specification fixes. *)
Inductive Fragment : Type := Base | Apt | Pip | Kubectl.

Definition rank (k : Fragment) : nat :=
  match k with
  | Base => 0 | Apt => 1 | Pip => 2 | Kubectl => 3
  end.

(** A build request, as far as the Composer reads it. *)
Record BuildRequest : Type := mkRequest {
  base_image : string;
  apt_packages : option string;
  pip_packages : option string;
  kubectl_version : option string
}.

(** A fragment is present when it is the base or its input is given and
    not empty. *)
Definition present (req : BuildRequest) (k : Fragment) : bool :=
  match k with
  | Base => true
  | Apt => Py.truthy (apt_packages req)
  | Pip => Py.truthy (pip_packages req)
  | Kubectl => Py.truthy (kubectl_version req)
  end.

(** The template each kind of fragment is rendered from. *)
Definition template_of (k : Fragment) : string :=
  match k with
  | Base => "base.j2"
  | Apt => "apt.j2"
  | Pip => "pip3.j2"
  | Kubectl => "with_kubectl.j2"
  end.

(** One fragment, rendered on its own from the request. *)
Definition fragment_text (util : Util) (req : BuildRequest) (k : Fragment) : string :=
  match k with
  | Base =>
      render (get_template util "base.j2")
        [("from_", base_image req);
         ("label", get_dugaire_image_label util (Some "dockerfile"))]
  | Apt =>
      render (get_template util "apt.j2")
        [("packages", Py.replace "," " " (match apt_packages req with
                                          | Some s => s | None => "" end))]
  | Pip =>
      render (get_template util "pip3.j2")
        [("packages", Py.replace "," " " (match pip_packages req with
                                          | Some s => s | None => "" end))]
  | Kubectl =>
      render (get_template util "with_kubectl.j2")
        [("url", kubectl_url (match kubectl_version req with
                              | Some s => s | None => "" end))]
  end.

(** The fixed order. *)
Definition fragment_order : list Fragment := [Base; Apt; Pip; Kubectl].

(** DockerfileText: the present fragments, concatenated in the fixed order. *)
Definition composed (util : Util) (req : BuildRequest) : string :=
  String.concat "" (map (fragment_text util req) (filter (present req) fragment_order)).

(** The Composer applied to a request. *)
Definition compose (util : Util) (req : BuildRequest) : string :=
  build_dockerfile util (base_image req) (apt_packages req) (pip_packages req)
    (kubectl_version req).

Definition compose_pieces (util : Util) (req : BuildRequest) : list (string * string) :=
  build_pieces util (base_image req) (apt_packages req) (pip_packages req)
    (kubectl_version req).

(** Modelled from the spec: what section 4.1 says of the absent templates.
    "Base fragment: [...] embeds the base image reference and the marker
    label". *)
Definition base_embeds (util : Util) : Prop :=
  forall from_ label,
    let text := render (get_template util "base.j2")
                  [("from_", from_); ("label", label)] in
    Py.contains from_ text = true /\ Py.contains label text = true.

(** Modelled from the spec: "MarkerLabel: a fixed key (and static value)
    attached to every image": the label written into a Dockerfile is not the
    empty text. *)
Definition label_given (util : Util) : Prop :=
  get_dugaire_image_label util (Some "dockerfile") <> "".

(** Modelled from the spec: "packages are joined into a single
    space-separated install command argument" of the apt fragment, and
    "same joining rule" for pip: the template embeds its [packages]. *)
Definition packages_embedded (util : Util) (template : string) : Prop :=
  forall packages,
    Py.contains packages
      (render (get_template util template) [("packages", packages)]) = true.

(** Modelled from the spec: the kubectl fragment "embeds" the resolution
    command or the "direct versioned download URL": the template embeds
    its [url]. *)
Definition url_embedded (util : Util) : Prop :=
  forall url,
    Py.contains url
      (render (get_template util "with_kubectl.j2") [("url", url)]) = true.

(** Remove a leading [p] from [s], if there is one. *)
Definition strip_prefix (p s : string) : string :=
  if prefix p s then Py.drop (String.length p) s else s.

(** The short identifier in the specification's words: the algorithm prefix
    stripped, then cut to twelve characters. *)
Definition short_form (image_id : string) : string :=
  Py.take 12 (strip_prefix "sha256:" image_id).

(** An image identifier as the container runtime writes it: the algorithm
    name, a colon, and the sixty-four hex digits of the digest. *)
Definition is_docker_id (image_id : string) : bool :=
  prefix "sha256:" image_id
  && (String.length image_id =? 71)%nat
  && Py.all_chars Uuid.is_hex (Py.drop 7 image_id).

(** The algorithm prefix stands at most at the front of [image_id]. *)
Definition prefix_only_leading (image_id : string) : Prop :=
  Py.contains "sha256:" (strip_prefix "sha256:" image_id) = false.

(** The rows [list_] tabulates for [images]. *)
Definition table_rows (short : bool) (images : list Image) : list row :=
  map (fun image => (shown_id short (Image_id image), Image_tags image)) images.

(** Package names joined by single spaces, in the order given. *)
Definition space_separated (pkgs : list string) : string := Py.join " " pkgs.

(** The command substitution that asks for the latest stable release while
    the image is being built. *)
Definition resolution_command : string :=
  "$(curl -s https://storage.googleapis.com/kubernetes-release/release/stable.txt)".

(* ================================================================= *)
(** * A sample [util], to run the commands on

    Stand-ins for the absent templates and helpers, used only to evaluate
    the commands on concrete inputs. *)

Module Sample.

Definition nl : string := String (ascii_of_nat 10) EmptyString.

(** A keyword argument, empty when not passed. *)
Fixpoint kw (key : string) (args : kwargs) : string :=
  match args with
  | [] => ""
  | (k, v) :: rest => if k =? key then v else kw key rest
  end.

Definition templates (name : string) : Template :=
  fun args =>
    if name =? "base.j2" then
      "FROM " ++ kw "from_" args ++ nl ++ "LABEL " ++ kw "label" args ++ nl
    else if name =? "apt.j2" then
      "RUN apt-get update && apt-get install -y " ++ kw "packages" args ++ nl
    else if name =? "pip3.j2" then
      "RUN pip3 install " ++ kw "packages" args ++ nl
    else if name =? "with_kubectl.j2" then
      "RUN curl -LO " ++ kw "url" args ++ nl
    else "".

Definition label (context : option string) : string :=
  match context with
  | Some _ => "builtwith=dugaire"
  | None => "builtwith=dugaire"
  end.

Definition tabulate (rows : list row) (headers : list string) : string :=
  String.concat " | " headers ++ nl
  ++ String.concat nl
       (map (fun r : row => fst r ++ " | " ++ String.concat "," (snd r)) rows).

Definition util : Util := mkUtil templates label tabulate.

(** A daemon that builds anything and holds [images]. *)
Definition daemon (images : list Image) : Docker :=
  mkDocker None
    (fun fileobj tag =>
       inr (mkImage "sha256:0123456789abcdef0123456789abcdef0123456789abcdef0123456789abcdef"
              [tag]))
    (fun _ => inr images).

(** A daemon that cannot be reached. *)
Definition no_daemon : Docker :=
  mkDocker (Some (DockerError "connection refused"))
    (fun _ _ => inl (DockerError "connection refused"))
    (fun _ => inl (DockerError "connection refused")).

Definition random (seed : N) (n : nat) : N :=
  ((seed + N.of_nat n + 1) * 211106232532992394558366893888538283221)%N.

Definition world (seed : N) (images : list Image) : World :=
  mkWorld (random seed) 0 (daemon images) [].

Definition image1 : Image :=
  mkImage "sha256:aaaabbbbccccddddeeeeffff0000111122223333444455556666777788889999"
    ["dug-1a2b3c4d:5e6f7a8b"].

Definition image2 : Image :=
  mkImage "sha256:0f1e2d3c4b5a69788796a5b4c3d2e1f00f1e2d3c4b5a69788796a5b4c3d2e1f0"
    ["tools:1.0"; "<none>:<none>"].

End Sample.

(* ================================================================= *)
(** * Sample daemons that misbehave *)

Module Faulty.

(** A daemon that accepts the client and refuses every build. *)
Definition build_fails : Docker :=
  mkDocker None
    (fun _ _ => inl (DockerError "build failed"))
    (fun _ => inr []).

(** A daemon whose built images carry no repository tag. *)
Definition untagged : Docker :=
  mkDocker None
    (fun _ _ =>
       inr (mkImage "sha256:0123456789abcdef0123456789abcdef0123456789abcdef0123456789abcdef"
              []))
    (fun _ => inr []).

(** A daemon that lists another tag before the one just given. *)
Definition retagging : Docker :=
  mkDocker None
    (fun _ tag =>
       inr (mkImage "sha256:0123456789abcdef0123456789abcdef0123456789abcdef0123456789abcdef"
              ["mirror/tools:1.0"; tag]))
    (fun _ => inr []).

(** A daemon that accepts the client and refuses the query. *)
Definition list_fails : Docker :=
  mkDocker None
    (fun _ _ => inl (DockerError "build failed"))
    (fun _ => inl (DockerError "query failed")).

Definition world (d : Docker) : World := mkWorld (Sample.random 7) 0 d [].

End Faulty.

Example uuid_str_zero :
  Uuid.str (Uuid.uuid4_int 0) = "00000000-0000-4000-8000-000000000000".
Proof. vm_compute. reflexivity. Qed.

Example uuid_str_ones :
  Uuid.str (Uuid.uuid4_int (2 ^ 128 - 1)%N) = "ffffffff-ffff-4fff-bfff-ffffffffffff".
Proof. vm_compute. reflexivity. Qed.

Example replace_ex1 : Py.replace "," " " "curl,nano,,vim" = "curl nano  vim".
Proof. reflexivity. Qed.

Example replace_ex2 : Py.replace "aa" "b" "aaaaa" = "bba".
Proof. reflexivity. Qed.

Example replace_ex3 : Py.replace "" "-" "abc" = "-a-b-c-".
Proof. reflexivity. Qed.

Example split_ex1 : Py.split "," "curl,nano,,vim" = ["curl"; "nano"; ""; "vim"].
Proof. reflexivity. Qed.

(* ================================================================= *)
(** * Facts about the string primitives *)

Module PyFacts.
Import Py.

Lemma app_nil_r (s : string) : s ++ "" = s.
Proof. induction s as [|c s IH]; simpl; [reflexivity | now rewrite IH]. Qed.

Lemma app_assoc (a b c : string) : (a ++ b) ++ c = a ++ (b ++ c).
Proof. induction a as [|x a IH]; simpl; [reflexivity | now rewrite IH]. Qed.

Lemma length_app (a b : string) :
  String.length (a ++ b) = String.length a + String.length b.
Proof. induction a as [|x a IH]; simpl; [reflexivity | now rewrite IH]. Qed.

Lemma app_eq_nil (a b : string) : a ++ b = "" -> a = "" /\ b = "".
Proof. destruct a; simpl; intros H; [now split | discriminate]. Qed.

(** ** [prefix] and [contains] *)

Lemma prefix_app (p s : string) : prefix p (p ++ s) = true.
Proof.
  induction p as [|c p IH]; simpl.
  - now destruct s.
  - destruct (ascii_dec c c) as [_|n]; [exact IH | now elim n].
Qed.

Lemma prefix_inv (p s : string) : prefix p s = true -> exists r, s = p ++ r.
Proof.
  revert s; induction p as [|c p IH]; intros s H.
  - now exists s.
  - destruct s as [|d s]; simpl in H; [discriminate|].
    destruct (ascii_dec c d) as [->|]; [|discriminate].
    destruct (IH _ H) as [r ->]. now exists r.
Qed.

Lemma contains_unfold (n h : string) :
  contains n h = prefix n h || match h with
                               | EmptyString => false
                               | String _ h' => contains n h'
                               end.
Proof. now destruct h. Qed.

Lemma contains_intro (a n b : string) : contains n (a ++ n ++ b) = true.
Proof.
  induction a as [|c a IH].
  - simpl (_ ++ _). rewrite contains_unfold, prefix_app. reflexivity.
  - simpl (_ ++ _). rewrite contains_unfold. fold (a ++ n ++ b).
    rewrite IH. apply orb_true_r.
Qed.

Lemma contains_inv (n h : string) :
  contains n h = true -> exists a b, h = a ++ n ++ b.
Proof.
  induction h as [|c h IH]; rewrite contains_unfold; intros H;
    apply orb_true_iff in H as [H|H]; try discriminate.
  - apply prefix_inv in H as [r ->]. now exists "", r.
  - apply prefix_inv in H as [r ->]. now exists "", r.
  - destruct (IH H) as (a & b & ->). now exists (String c a), b.
Qed.

Lemma contains_iff (n h : string) :
  contains n h = true <-> exists a b, h = a ++ n ++ b.
Proof.
  split; [apply contains_inv | intros (a & b & ->); apply contains_intro].
Qed.

Lemma contains_refl (s : string) : contains s s = true.
Proof.
  apply contains_iff. exists "", "". simpl. now rewrite app_nil_r.
Qed.

Lemma contains_app_l (n a b : string) :
  contains n a = true -> contains n (a ++ b) = true.
Proof.
  intros H. apply contains_iff in H as (x & y & ->). apply contains_iff.
  exists x, (y ++ b). now rewrite !app_assoc.
Qed.

Lemma contains_app_r (n a b : string) :
  contains n b = true -> contains n (a ++ b) = true.
Proof.
  intros H. apply contains_iff in H as (x & y & ->). apply contains_iff.
  exists (a ++ x), y. now rewrite !app_assoc.
Qed.

Lemma contains_trans (a b c : string) :
  contains a b = true -> contains b c = true -> contains a c = true.
Proof.
  intros H1 H2. apply contains_iff in H2 as (x & y & ->).
  apply contains_app_r, contains_app_l, H1.
Qed.

Lemma contains_nonempty (n h : string) :
  n <> "" -> contains n h = true -> h <> "".
Proof.
  intros Hn H ->. destruct n; [now elim Hn | discriminate].
Qed.

(** ** [replace] *)

Lemma replace_from_skip (old new : string) (s : string) :
  forall k, replace_from old new k s = replace_from old new 0 (drop k s).
Proof.
  induction s as [|c s IH]; intros [|k]; try reflexivity.
  simpl (drop _ _). simpl (replace_from _ _ (S k) _). apply IH.
Qed.

Lemma drop_app (a b : string) : drop (String.length a) (a ++ b) = b.
Proof. induction a as [|c a IH]; simpl; [now destruct b | exact IH]. Qed.

Lemma replace_leading (old new s : string) :
  old <> "" -> replace old new (old ++ s) = new ++ replace old new s.
Proof.
  intros Hold. unfold replace.
  destruct old as [|c old]; [now elim Hold|]. simpl (_ =? _).
  change (String c old ++ s) with (String c (old ++ s)).
  cbn [replace_from].
  change (String c (old ++ s)) with (String c old ++ s).
  rewrite prefix_app. f_equal.
  rewrite replace_from_skip. simpl (String.length _ - 1).
  now rewrite Nat.sub_0_r, drop_app.
Qed.

Lemma replace_absent (old new s : string) :
  old <> "" -> contains old s = false -> replace old new s = s.
Proof.
  intros Hold. unfold replace.
  destruct (String.eqb_spec old "") as [->|_]; [now elim Hold|].
  induction s as [|c s IH]; intros H; [reflexivity|].
  rewrite contains_unfold in H. apply orb_false_iff in H as [Hp Hc].
  cbn [replace_from]. rewrite Hp. f_equal. now apply IH.
Qed.

(** Replacing one character by another is a character-wise map. *)
Lemma replace_char (a b : ascii) (s : string) :
  replace (String a "") (String b "") s = map_chars (subst_char a b) s.
Proof.
  unfold replace. simpl (_ =? _).
  induction s as [|c s IH]; [reflexivity|].
  cbn [replace_from map_chars]. unfold subst_char at 1.
  simpl (prefix _ _).
  destruct (ascii_dec a c) as [->|n].
  - rewrite Ascii.eqb_refl. destruct s; simpl; f_equal; exact IH.
  - destruct (Ascii.eqb_spec c a) as [->|_]; [now elim n|]. f_equal. exact IH.
Qed.

Lemma split_not_nil (c : ascii) (s : string) : split c s <> [].
Proof.
  induction s as [|a s IH]; simpl; [discriminate|].
  destruct (Ascii.eqb a c); [discriminate|].
  destruct (split c s); [now elim IH | discriminate].
Qed.

Lemma concat_cons_char (sep : string) (a : ascii) (w : string) (ws : list string) :
  String.concat sep (String a w :: ws) = String a (String.concat sep (w :: ws)).
Proof. destruct ws; reflexivity. Qed.

Lemma map_chars_split (a b : ascii) (s : string) :
  map_chars (subst_char a b) s = join (String b "") (split a s).
Proof.
  unfold join. induction s as [|c s IH]; [reflexivity|].
  cbn [map_chars split]. unfold subst_char at 1.
  destruct (Ascii.eqb c a).
  - pose proof (split_not_nil a s) as Hne.
    destruct (split a s) as [|w ws]; [now elim Hne|].
    rewrite IH. reflexivity.
  - pose proof (split_not_nil a s) as Hne.
    destruct (split a s) as [|w ws]; [now elim Hne|].
    rewrite concat_cons_char. f_equal. exact IH.
Qed.

(** [s.replace(a, b)] is [b.join(s.split(a))] for single characters. *)
Lemma replace_split_join (a b : ascii) (s : string) :
  replace (String a "") (String b "") s = join (String b "") (split a s).
Proof. now rewrite replace_char, map_chars_split. Qed.

Lemma split_free (c : ascii) (s : string) : free_of c s = true -> split c s = [s].
Proof.
  induction s as [|a s IH]; [reflexivity|].
  unfold free_of. cbn [all_chars split]. intros H.
  apply andb_true_iff in H as [Ha Hs].
  destruct (Ascii.eqb a c); [discriminate|].
  now rewrite (IH Hs).
Qed.

Lemma split_app_sep (c : ascii) (w rest : string) :
  free_of c w = true ->
  split c (w ++ String c rest) = w :: split c rest.
Proof.
  induction w as [|a w IH]; intros H.
  - simpl. now rewrite Ascii.eqb_refl.
  - unfold free_of in H. cbn [all_chars] in H.
    apply andb_true_iff in H as [Ha Hw].
    change (String a w ++ String c rest) with (String a (w ++ String c rest)).
    cbn [split]. destruct (Ascii.eqb a c); [discriminate|].
    now rewrite (IH Hw).
Qed.

(** Splitting undoes joining, when no element holds the separator. *)
Lemma split_join (c : ascii) (l : list string) :
  l <> [] -> forallb (free_of c) l = true ->
  split c (join (String c "") l) = l.
Proof.
  unfold join. induction l as [|w l IH]; intros Hne H; [now elim Hne|].
  cbn [forallb] in H. apply andb_true_iff in H as [Hw Hl].
  destruct l as [|w' l].
  - simpl. now apply split_free.
  - change (String.concat (String c "") (w :: w' :: l))
      with (w ++ String c (String.concat (String c "") (w' :: l))).
    rewrite split_app_sep by exact Hw. f_equal. apply IH; [discriminate | exact Hl].
Qed.

(** ** [take] *)

Lemma take_length (n : nat) (s : string) :
  String.length (take n s) = Nat.min n (String.length s).
Proof.
  unfold take. revert s; induction n as [|n IH]; intros [|c s]; simpl; auto.
Qed.

Lemma take_app_exact (a b : string) : take (String.length a) (a ++ b) = a.
Proof.
  unfold take. induction a as [|c a IH]; simpl.
  - now destruct b.
  - now rewrite IH.
Qed.

Lemma take_all_chars (p : ascii -> bool) (n : nat) (s : string) :
  all_chars p s = true -> all_chars p (take n s) = true.
Proof.
  unfold take. revert s; induction n as [|n IH]; intros [|c s]; simpl; auto.
  intros H. apply andb_true_iff in H as [Hc Hs]. rewrite Hc. now apply IH.
Qed.

(** ** Characters that cannot occur *)

Lemma all_chars_app (p : ascii -> bool) (a b : string) :
  all_chars p (a ++ b) = all_chars p a && all_chars p b.
Proof.
  induction a as [|c a IH]; simpl; [reflexivity|].
  now rewrite IH, andb_assoc.
Qed.

Lemma contains_needs_first (p : ascii -> bool) (c : ascii) (n h : string) :
  p c = false -> all_chars p h = true -> contains (String c n) h = false.
Proof.
  intros Hc. induction h as [|d h IH]; intros H; [reflexivity|].
  cbn [all_chars] in H. apply andb_true_iff in H as [Hd Hh].
  rewrite contains_unfold. rewrite (IH Hh), orb_false_r.
  simpl. destruct (ascii_dec c d) as [->|]; [congruence | reflexivity].
Qed.

End PyFacts.

(* ================================================================= *)
(** * Facts about UUID strings *)

Module UuidFacts.
Import Py Uuid PyFacts.

Lemma hex_digit_is_hex (d : N) : is_hex (hex_digit d) = true.
Proof.
  destruct d as [|p]; [reflexivity|].
  do 4 (destruct p as [p|p|]; try reflexivity).
Qed.

Lemma hex_fixed_length (n : nat) : forall v, String.length (hex_fixed n v) = n.
Proof.
  induction n as [|n IH]; intros v; simpl; [reflexivity|].
  rewrite length_app, IH. simpl. lia.
Qed.

Lemma hex_fixed_is_hex (n : nat) : forall v, all_chars is_hex (hex_fixed n v) = true.
Proof.
  induction n as [|n IH]; intros v; simpl; [reflexivity|].
  rewrite all_chars_app, IH. simpl. now rewrite hex_digit_is_hex.
Qed.

(** The first eight characters of [str(u)] are the eight leading hex digits. *)
Lemma str_take8 (u : N) : take 8 (str u) = take 8 (hex_fixed 32 u).
Proof.
  unfold str.
  set (hex := hex_fixed 32 u). set (a := take 8 hex).
  assert (Ha : String.length a = 8).
  { unfold a. rewrite take_length. unfold hex. now rewrite hex_fixed_length. }
  rewrite <- Ha at 1. apply take_app_exact.
Qed.

Lemma str_take8_length (u : N) : String.length (take 8 (str u)) = 8.
Proof. now rewrite str_take8, take_length, hex_fixed_length. Qed.

Lemma str_take8_is_hex (u : N) : all_chars is_hex (take 8 (str u)) = true.
Proof. rewrite str_take8. apply take_all_chars, hex_fixed_is_hex. Qed.

(** [str(u)] always has the thirty-six characters of a UUID. *)
Lemma str_length (u : N) : String.length (str u) = 36.
Proof.
  unfold str, slice, take.
  pose proof (hex_fixed_length 32 u) as H.
  remember (hex_fixed 32 u) as hex eqn:E. clear E.
  do 32 (destruct hex as [|? hex]; [discriminate H|]).
  destruct hex; [reflexivity | discriminate H].
Qed.

End UuidFacts.

(* ================================================================= *)
(** * The Dockerfile Composer *)

Module ComposerFacts.
Import Py PyFacts.

Lemma if_truthy_truthy {A} (o : option string) (then_ : string -> A) (else_ : A) :
  if_truthy o then_ else_
  = if truthy o then then_ (match o with Some s => s | None => "" end) else else_.
Proof. destruct o as [[|c s]|]; reflexivity. Qed.

Lemma truthy_some (o : option string) :
  truthy o = true <-> exists s, o = Some s /\ s <> "".
Proof.
  destruct o as [[|c s]|]; simpl; split; try discriminate.
  - intros (s & [= <-] & H). now elim H.
  - intros _. exists (String c s). split; [reflexivity | discriminate].
  - reflexivity.
  - intros (s & H & _). discriminate.
Qed.


(** The pieces the code appends are the present fragments of the
    specification, in its order. *)
Lemma pieces_are_present_fragments (util : Util) (req : BuildRequest) :
  compose_pieces util req
  = map (fun k => (template_of k, fragment_text util req k))
        (filter (present req) fragment_order).
Proof.
  destruct req as [f a p k]. unfold compose_pieces, build_pieces. simpl.
  destruct a as [[|? ?]|], p as [[|? ?]|], k as [[|? ?]|]; reflexivity.
Qed.

(** The text is the pieces, glued with nothing in between. *)
Lemma dockerfile_is_pieces (util : Util) (from_ : string)
    (apt pip3 with_kubectl : option string) :
  build_dockerfile util from_ apt pip3 with_kubectl
  = String.concat "" (map snd (build_pieces util from_ apt pip3 with_kubectl)).
Proof.
  unfold build_dockerfile, build_pieces.
  destruct apt as [[|? ?]|], pip3 as [[|? ?]|], with_kubectl as [[|? ?]|];
    cbn [if_truthy String.eqb map snd app String.concat append];
    rewrite ?app_assoc; reflexivity.
Qed.

Lemma concat_contains (sep t : string) (l : list string) :
  In t l -> contains t (String.concat sep l) = true.
Proof.
  induction l as [|x l IH]; intros H; [elim H|].
  destruct l as [|y l].
  - destruct H as [->|[]]. apply contains_refl.
  - change (String.concat sep (x :: y :: l))
      with (x ++ sep ++ String.concat sep (y :: l)).
    destruct H as [->|H].
    + apply contains_app_l, contains_refl.
    + apply contains_app_r, contains_app_r, IH, H.
Qed.

(** Whatever a piece holds, the Dockerfile holds. *)
Lemma piece_in_dockerfile (util : Util) (from_ : string)
    (apt pip3 with_kubectl : option string) (name text inner : string) :
  In (name, text) (build_pieces util from_ apt pip3 with_kubectl) ->
  contains inner text = true ->
  contains inner (build_dockerfile util from_ apt pip3 with_kubectl) = true.
Proof.
  intros Hin Hc. rewrite dockerfile_is_pieces.
  apply contains_trans with text; [exact Hc|].
  apply concat_contains. change text with (snd (name, text)). now apply in_map.
Qed.

Lemma base_piece (util : Util) (from_ : string) (apt pip3 with_kubectl : option string) :
  In ("base.j2",
      render (get_template util "base.j2")
        [("from_", from_); ("label", get_dugaire_image_label util (Some "dockerfile"))])
     (build_pieces util from_ apt pip3 with_kubectl).
Proof.
  change (build_pieces util from_ apt pip3 with_kubectl)
    with (compose_pieces util (mkRequest from_ apt pip3 with_kubectl)).
  rewrite pieces_are_present_fragments. simpl. now left.
Qed.

Lemma apt_piece (util : Util) (from_ apt : string) (pip3 with_kubectl : option string) :
  apt <> "" ->
  In ("apt.j2", render (get_template util "apt.j2") [("packages", replace "," " " apt)])
     (build_pieces util from_ (Some apt) pip3 with_kubectl).
Proof.
  intros H.
  change (build_pieces util from_ (Some apt) pip3 with_kubectl)
    with (compose_pieces util (mkRequest from_ (Some apt) pip3 with_kubectl)).
  rewrite pieces_are_present_fragments.
  apply in_map_iff. exists Apt. split; [reflexivity|].
  apply filter_In. split; [simpl; tauto|].
  apply truthy_some. now exists apt.
Qed.

Lemma pip_piece (util : Util) (from_ pip3 : string) (apt with_kubectl : option string) :
  pip3 <> "" ->
  In ("pip3.j2", render (get_template util "pip3.j2") [("packages", replace "," " " pip3)])
     (build_pieces util from_ apt (Some pip3) with_kubectl).
Proof.
  intros H.
  change (build_pieces util from_ apt (Some pip3) with_kubectl)
    with (compose_pieces util (mkRequest from_ apt (Some pip3) with_kubectl)).
  rewrite pieces_are_present_fragments.
  apply in_map_iff. exists Pip. split; [reflexivity|].
  apply filter_In. split; [simpl; tauto|].
  apply truthy_some. now exists pip3.
Qed.

Lemma kubectl_piece (util : Util) (from_ v : string) (apt pip3 : option string) :
  v <> "" ->
  In ("with_kubectl.j2",
      render (get_template util "with_kubectl.j2") [("url", kubectl_url v)])
     (build_pieces util from_ apt pip3 (Some v)).
Proof.
  intros H.
  change (build_pieces util from_ apt pip3 (Some v))
    with (compose_pieces util (mkRequest from_ apt pip3 (Some v))).
  rewrite pieces_are_present_fragments.
  apply in_map_iff. exists Kubectl. split; [reflexivity|].
  apply filter_In. split; [simpl; tauto|].
  apply truthy_some. now exists v.
Qed.

(** A kubectl version that is given adds one fragment at the end: the
    template rendered with the url of that version, and nothing else. *)
Lemma kubectl_appended (util : Util) (from_ v : string) (apt pip3 : option string) :
  v <> "" ->
  build_dockerfile util from_ apt pip3 (Some v)
  = build_dockerfile util from_ apt pip3 None
    ++ render (get_template util "with_kubectl.j2") [("url", kubectl_url v)].
Proof.
  intros Hv. unfold build_dockerfile.
  destruct v as [|c v]; [now elim Hv|]. reflexivity.
Qed.

Lemma kubectl_piece_appended (util : Util) (from_ v : string)
    (apt pip3 : option string) :
  v <> "" ->
  build_pieces util from_ apt pip3 (Some v)
  = (build_pieces util from_ apt pip3 None
     ++ [("with_kubectl.j2",
          render (get_template util "with_kubectl.j2") [("url", kubectl_url v)])])%list.
Proof.
  intros Hv. unfold build_pieces.
  destruct v as [|c v]; [now elim Hv|]. reflexivity.
Qed.

(** Without a kubectl version no piece comes from [with_kubectl.j2]. *)
Lemma no_kubectl_piece (util : Util) (from_ : string) (apt pip3 : option string) :
  filter (fun piece => fst piece =? "with_kubectl.j2")
    (build_pieces util from_ apt pip3 None) = [].
Proof.
  unfold build_pieces.
  destruct apt as [[|? ?]|], pip3 as [[|? ?]|]; reflexivity.
Qed.




End ComposerFacts.

(* ================================================================= *)
(** * Where an occurrence can lie in a concatenation *)

Module OccurFacts.
Import Py PyFacts.

(** A character of [x ++ y] lies in [x] or in [y]. *)
Lemma app_split (x y a b : string) (c : ascii) :
  x ++ y = a ++ String c b ->
  (exists a', a = x ++ a' /\ y = a' ++ String c b)
  \/ (exists b', x = a ++ String c b' /\ b = b' ++ y).
Proof.
  revert a; induction x as [|d x IH]; intros a H.
  - left. now exists a.
  - destruct a as [|e a]; simpl in H; injection H as -> H.
    + right. now exists x.
    + destruct (IH _ H) as [(a' & -> & ->)|(b' & -> & ->)].
      * left. now exists a'.
      * right. now exists b'.
Qed.

Lemma free_of_app_char (c : ascii) (a b : string) :
  free_of c (a ++ String c b) = false.
Proof.
  unfold free_of. rewrite all_chars_app. cbn [all_chars].
  rewrite Ascii.eqb_refl. simpl. apply andb_false_r.
Qed.

(** An occurrence that starts with a character foreign to [P] and ends with
    a character foreign to [S] lies, within [P ++ v ++ S], inside [v]. *)
Lemma contains_inside (c0 cl : ascii) (m m' P v S : string) :
  String c0 m = m' ++ String cl "" ->
  free_of c0 P = true -> free_of cl S = true ->
  contains (String c0 m) (P ++ v ++ S) = true ->
  contains (String c0 m) v = true.
Proof.
  intros Hlast HP HS H.
  apply contains_inv in H as (a & b & H).
  change (String c0 m ++ b) with (String c0 (m ++ b)) in H.
  apply app_split in H as [(a' & -> & H)|(b' & -> & _)].
  2:{ now rewrite free_of_app_char in HP. }
  change (String c0 (m ++ b)) with (String c0 m ++ b) in H.
  rewrite Hlast, app_assoc in H. simpl (String cl "" ++ b) in H.
  rewrite <- app_assoc in H.
  apply app_split in H as [(b' & _ & ->)|(b' & -> & _)].
  1:{ now rewrite free_of_app_char in HS. }
  apply contains_iff. exists a', b'.
  rewrite Hlast, !app_assoc. reflexivity.
Qed.

End OccurFacts.

(* ================================================================= *)
(** * Claims about the Composer *)

Import Py PyFacts ComposerFacts.

(** C2: for every build request the rendered Dockerfile is the concatenation
    of the present fragments in the fixed order base, apt, pip, kubectl,
    whichever of the three optional fragments are present. *)
Theorem fragments_in_fixed_order (util : Util) (req : BuildRequest) :
  let kinds := filter (present req) fragment_order in
  map fst (compose_pieces util req) = map template_of kinds
  /\ map snd (compose_pieces util req) = map (fragment_text util req) kinds
  /\ compose util req = composed util req
  /\ compose util req
     = fragment_text util req Base
       ++ (if present req Apt then fragment_text util req Apt else "")
       ++ (if present req Pip then fragment_text util req Pip else "")
       ++ (if present req Kubectl then fragment_text util req Kubectl else "")
  /\ StronglySorted lt (map rank kinds)
  /\ hd_error kinds = Some Base.
Proof.
  intros kinds.
  assert (Hp : compose_pieces util req
               = map (fun k => (template_of k, fragment_text util req k)) kinds)
    by apply pieces_are_present_fragments.
  assert (Hc : compose util req = composed util req).
  { unfold compose, composed. rewrite dockerfile_is_pieces.
    fold (compose_pieces util req). fold kinds. rewrite Hp, map_map. reflexivity. }
  split; [now rewrite Hp, map_map|].
  split; [now rewrite Hp, map_map|].
  split; [exact Hc|].
  split.
  - rewrite Hc. unfold composed, fragment_order. cbn [filter present].
    destruct (truthy (apt_packages req)), (truthy (pip_packages req)),
      (truthy (kubectl_version req));
      cbn [map String.concat append]; rewrite ?app_nil_r; reflexivity.
  - unfold kinds, fragment_order. cbn [filter present].
    destruct (truthy (apt_packages req)), (truthy (pip_packages req)),
      (truthy (kubectl_version req));
      cbn [map rank hd_error]; (split; [|reflexivity]);
      repeat (constructor; try lia).
Qed.


(** C6: a non-empty comma-separated package input, for apt and for pip alike,
    reaches its install fragment as one space-separated argument holding the
    caller's packages in the caller's order, duplicates included. *)
Theorem packages_in_caller_order (util : Util)
    (Hapt : packages_embedded util "apt.j2")
    (Hpip : packages_embedded util "pip3.j2") :
  (forall s, replace "," " " s = space_separated (split "," s))
  /\ forall pkgs,
       pkgs <> [] -> forallb (free_of ",") pkgs = true -> join "," pkgs <> "" ->
       replace "," " " (join "," pkgs) = space_separated pkgs
       /\ (forallb (free_of " ") pkgs = true ->
           split " " (space_separated pkgs) = pkgs)
       /\ (forall from_ pip3 with_kubectl,
             In ("apt.j2",
                 render (get_template util "apt.j2")
                   [("packages", space_separated pkgs)])
                (build_pieces util from_ (Some (join "," pkgs)) pip3 with_kubectl)
             /\ contains (space_separated pkgs)
                  (build_dockerfile util from_ (Some (join "," pkgs)) pip3
                     with_kubectl) = true)
       /\ (forall from_ apt with_kubectl,
             In ("pip3.j2",
                 render (get_template util "pip3.j2")
                   [("packages", space_separated pkgs)])
                (build_pieces util from_ apt (Some (join "," pkgs)) with_kubectl)
             /\ contains (space_separated pkgs)
                  (build_dockerfile util from_ apt (Some (join "," pkgs))
                     with_kubectl) = true).
Proof.
  split; [intros s; apply replace_split_join|].
  intros pkgs Hne Hfree Hjoin.
  assert (Hrep : replace "," " " (join "," pkgs) = space_separated pkgs).
  { rewrite replace_split_join. unfold space_separated. f_equal.
    now apply split_join. }
  split; [exact Hrep|].
  split; [intros Hsp; now apply split_join|].
  split; intros from_ other with_kubectl.
  - pose proof (apt_piece util from_ (join "," pkgs) other with_kubectl Hjoin) as Hin.
    rewrite Hrep in Hin. split; [exact Hin|].
    eapply piece_in_dockerfile; [exact Hin | apply Hapt].
  - pose proof (pip_piece util from_ (join "," pkgs) other with_kubectl Hjoin) as Hin.
    rewrite Hrep in Hin. split; [exact Hin|].
    eapply piece_in_dockerfile; [exact Hin | apply Hpip].
Qed.

Lemma packages_in_caller_order_witness :
  let pkgs := ["python3-pip"; "curl"; "nano"; "curl"] in
  Py.join "," pkgs = "python3-pip,curl,nano,curl"
  /\ space_separated pkgs = "python3-pip curl nano curl"
  /\ Py.contains "python3-pip curl nano curl"
       (build_dockerfile Sample.util "ubuntu:18.04"
          (Some "python3-pip,curl,nano,curl") None None) = true
  /\ Py.contains "python3-pip curl nano curl"
       (build_dockerfile Sample.util "ubuntu:18.04" None
          (Some "python3-pip,curl,nano,curl") None) = true.
Proof.
  intros pkgs.
  assert (Ha : packages_embedded Sample.util "apt.j2").
  { intros packages. apply (contains_intro "RUN apt-get update && apt-get install -y "). }
  assert (Hp : packages_embedded Sample.util "pip3.j2").
  { intros packages. apply (contains_intro "RUN pip3 install "). }
  destruct (packages_in_caller_order Sample.util Ha Hp) as [_ H].
  destruct (H pkgs) as (_ & _ & H1 & H2);
    [discriminate | reflexivity | discriminate |].
  split; [reflexivity|]. split; [reflexivity|].
  split.
  - exact (proj2 (H1 "ubuntu:18.04" None None)).
  - exact (proj2 (H2 "ubuntu:18.04" None None)).
Defined.

(** C4: with [--with-kubectl=latest] the kubectl fragment is the template
    rendered with the url that carries the command looking the stable
    release up while the image is built, and no versioned path; with a
    concrete version [v] the fragment is the template rendered with the
    direct download URL holding [v] preceded by the letter v, and that URL -
    the only one handed to the template - holds no resolution command. *)
Theorem kubectl_latest_or_versioned (util : Util) (Hurl : url_embedded util) :
  (kubectl_url "latest" = kubectl_latest_url
   /\ contains resolution_command (kubectl_url "latest") = true
   /\ contains "/release/v" (kubectl_url "latest") = false
   /\ (forall from_ apt pip3,
         contains resolution_command
           (build_dockerfile util from_ apt pip3 (Some "latest")) = true)
   /\ forall from_ apt pip3,
        build_dockerfile util from_ apt pip3 (Some "latest")
        = build_dockerfile util from_ apt pip3 None
          ++ render (get_template util "with_kubectl.j2")
               [("url", kubectl_latest_url)]
        /\ filter (fun piece => fst piece =? "with_kubectl.j2")
             (build_pieces util from_ apt pip3 (Some "latest"))
           = [("with_kubectl.j2",
               render (get_template util "with_kubectl.j2")
                 [("url", kubectl_latest_url)])])
  /\ (forall v,
        v <> "latest" ->
        kubectl_url v
        = "https://storage.googleapis.com/kubernetes-release/release/v" ++ v
          ++ "/bin/linux/amd64/kubectl"
        /\ contains ("v" ++ v) (kubectl_url v) = true
        /\ (contains resolution_command v = false ->
            contains resolution_command (kubectl_url v) = false)
        /\ (v <> "" ->
            forall from_ apt pip3,
              contains ("v" ++ v)
                (build_dockerfile util from_ apt pip3 (Some v)) = true)
        /\ (v <> "" ->
            forall from_ apt pip3,
              build_dockerfile util from_ apt pip3 (Some v)
              = build_dockerfile util from_ apt pip3 None
                ++ render (get_template util "with_kubectl.j2")
                     [("url",
                       "https://storage.googleapis.com/kubernetes-release/release/v"
                       ++ v ++ "/bin/linux/amd64/kubectl")]
              /\ filter (fun piece => fst piece =? "with_kubectl.j2")
                   (build_pieces util from_ apt pip3 (Some v))
                 = [("with_kubectl.j2",
                     render (get_template util "with_kubectl.j2")
                       [("url",
                         "https://storage.googleapis.com/kubernetes-release/release/v"
                         ++ v ++ "/bin/linux/amd64/kubectl")])]))
  /\ kubectl_url "1.17.0"
     = "https://storage.googleapis.com/kubernetes-release/release/v1.17.0/bin/linux/amd64/kubectl"
  /\ contains resolution_command (kubectl_url "1.17.0") = false
  /\ forall from_ apt pip3,
       build_dockerfile util from_ apt pip3 (Some "1.17.0")
       = build_dockerfile util from_ apt pip3 None
         ++ render (get_template util "with_kubectl.j2")
              [("url",
                "https://storage.googleapis.com/kubernetes-release/release/v1.17.0/bin/linux/amd64/kubectl")].
Proof.
  assert (Hfrag : forall v from_ apt pip3,
             v <> "" ->
             build_dockerfile util from_ apt pip3 (Some v)
             = build_dockerfile util from_ apt pip3 None
               ++ render (get_template util "with_kubectl.j2") [("url", kubectl_url v)]
             /\ filter (fun piece => fst piece =? "with_kubectl.j2")
                  (build_pieces util from_ apt pip3 (Some v))
                = [("with_kubectl.j2",
                    render (get_template util "with_kubectl.j2")
                      [("url", kubectl_url v)])]).
  { intros v from_ apt pip3 Hv. split; [now apply kubectl_appended|].
    rewrite kubectl_piece_appended by exact Hv.
    rewrite filter_app, no_kubectl_piece. reflexivity. }
  split; [|split; [|split; [reflexivity|split; [reflexivity|]]]].
  - split; [reflexivity|]. split; [reflexivity|]. split; [reflexivity|].
    split.
    + intros from_ apt pip3.
      eapply piece_in_dockerfile.
      * apply (kubectl_piece util from_ "latest"). discriminate.
      * eapply contains_trans; [|apply Hurl]. reflexivity.
    + intros from_ apt pip3.
      apply (Hfrag "latest" from_ apt pip3). discriminate.
  - intros v Hv.
    assert (E : kubectl_url v
                = "https://storage.googleapis.com/kubernetes-release/release/v" ++ v
                  ++ "/bin/linux/amd64/kubectl").
    { unfold kubectl_url. apply String.eqb_neq in Hv. now rewrite Hv. }
    assert (Hc : contains ("v" ++ v) (kubectl_url v) = true).
    { rewrite E.
      apply (contains_intro "https://storage.googleapis.com/kubernetes-release/release/"
               ("v" ++ v) "/bin/linux/amd64/kubectl"). }
    split; [exact E|]. split; [exact Hc|]. split; [|split].
    + intros Hno. destruct (contains resolution_command (kubectl_url v)) eqn:Hin;
        [|reflexivity].
      rewrite E in Hin. unfold resolution_command in Hin, Hno.
      eapply OccurFacts.contains_inside
        with (cl := ")"%char)
             (m' := "$(curl -s https://storage.googleapis.com/kubernetes-release/release/stable.txt")
        in Hin; [congruence | reflexivity | reflexivity | reflexivity].
    + intros Hne from_ apt pip3.
      eapply piece_in_dockerfile.
      * apply (kubectl_piece util from_ v); exact Hne.
      * eapply contains_trans; [exact Hc | apply Hurl].
    + intros Hne from_ apt pip3. rewrite <- E. now apply Hfrag.
  - intros from_ apt pip3.
    apply (Hfrag "1.17.0" from_ apt pip3). discriminate.
Qed.

Lemma kubectl_latest_or_versioned_witness :
  Py.contains resolution_command
    (build_dockerfile Sample.util "ubuntu:18.04" None None (Some "latest")) = true
  /\ Py.contains "v1.17.0"
       (build_dockerfile Sample.util "ubuntu:18.04" None None (Some "1.17.0")) = true
  /\ Py.contains resolution_command (kubectl_url "1.17.0") = false
  /\ build_dockerfile Sample.util "ubuntu:18.04" None None (Some "1.17.0")
     = build_dockerfile Sample.util "ubuntu:18.04" None None None
       ++ "RUN curl -LO https://storage.googleapis.com/kubernetes-release/release/v1.17.0/bin/linux/amd64/kubectl"
       ++ Sample.nl
  /\ Py.contains resolution_command
       (build_dockerfile Sample.util "ubuntu:18.04" None None (Some "1.17.0")) = false.
Proof.
  assert (Hu : url_embedded Sample.util).
  { intros url. apply (contains_intro "RUN curl -LO "). }
  destruct (kubectl_latest_or_versioned Sample.util Hu)
    as ((_ & _ & _ & H1 & _) & H2 & _ & _ & H5).
  split; [apply H1|].
  destruct (H2 "1.17.0") as (_ & _ & H3 & H4 & _); [discriminate|].
  split; [apply H4; discriminate|]. split; [apply H3; reflexivity|].
  split; [rewrite H5; reflexivity|].
  rewrite H5. reflexivity.
Defined.

(* ================================================================= *)
(** * Running the commands *)

Module RunFacts.

(** Unfold the monad down to worlds, leaving strings and UUIDs alone. *)
Ltac run_monad :=
  cbv [bind ret raise emit of_result docker_from_env client_images_build
       client_images_list uuid_uuid4 click_echo print index0 random_image_name
       run outcome after boot];
  cbn [fst snd urandom16 drawn docker events].

Ltac tidy_events := rewrite <- ?List.app_assoc; cbn [app]; rewrite ?List.app_nil_r.

Lemma outputs_are_output (output : string) (i n : option string) (t : string) :
  forallb is_output (outputs output i n t) = true.
Proof.
  unfold outputs.
  destruct (output =? "image-id"), (output =? "image-name"),
    (output =? "dockerfile"); reflexivity.
Qed.

(** The three [if output == ...] statements, run from any world. *)
Lemma echo_outputs (output : string) (i n : option string) (t : string) (w : World) :
  ((if output =? "image-id" then click_echo i else ret tt) ;;
   (if output =? "image-name" then click_echo n else ret tt) ;;
   (if output =? "dockerfile" then click_echo (Some t) else ret tt)) w
  = (Ok tt, after w (drawn w) (outputs output i n t)).
Proof.
  destruct w as [r d dk evs]. unfold outputs.
  destruct (output =? "image-id"), (output =? "image-name"),
    (output =? "dockerfile"); run_monad; tidy_events; reflexivity.
Qed.

(** A dry run: the Dockerfile is composed and the outputs are echoed. *)
Lemma build_dry (util : Util) (from_ : string) (apt pip3 with_kubectl : option string)
    (name output : string) (w : World) :
  build util from_ apt pip3 with_kubectl name true output w
  = (Ok tt, after w (drawn w)
              (outputs output None None
                 (build_dockerfile util from_ apt pip3 with_kubectl))).
Proof.
  unfold build. cbn [negb].
  unfold bind at 1. unfold ret at 1. cbn [fst snd].
  apply echo_outputs.
Qed.

(** A build whose client cannot be had stops before anything is drawn. *)
Lemma build_no_client (util : Util) (from_ : string)
    (apt pip3 with_kubectl : option string) (name output : string) (w : World)
    (e : exn) :
  from_env_result (docker w) = Some e ->
  build util from_ apt pip3 with_kubectl name false output w
  = (Raise e, after w (drawn w) [EvFromEnv]).
Proof.
  destruct w as [r d dk evs]. intros H. cbn [docker] in H.
  unfold build. cbn [negb]. run_monad. rewrite H. run_monad. reflexivity.
Qed.

(** A build that reaches the daemon, whatever the daemon answers. *)
Lemma build_real (util : Util) (from_ : string)
    (apt pip3 with_kubectl : option string) (name output : string) (w : World) :
  from_env_result (docker w) = None ->
  let dockerfile := build_dockerfile util from_ apt pip3 with_kubectl in
  let tag := submitted_tag name w in
  let calls := build_calls name dockerfile w in
  build util from_ apt pip3 with_kubectl name false output w
  = match images_build_result (docker w) dockerfile tag with
    | inl e => (Raise e, after w (drawn_after name w) calls)
    | inr image =>
        match attrs_RepoTags image with
        | [] => (Raise IndexError, after w (drawn_after name w) calls)
        | image_name :: _ =>
            (Ok tt,
             after w (drawn_after name w)
               (calls ++ outputs output (Some (attrs_Id image)) (Some image_name)
                           dockerfile))
        end
    end.
Proof.
  destruct w as [r d dk evs]. intros H dockerfile tag calls.
  cbn [docker] in H |- *.
  unfold build, calls, tag, build_calls, submitted_tag, name_draws, drawn_after,
    next_uuid, outputs.
  fold dockerfile. cbn [negb drawn urandom16].
  rewrite ?Nat.add_0_r, ?Nat.add_1_r.
  replace (d + 2) with (S (S d)) by lia.
  destruct (name =? "random"); run_monad; rewrite H; run_monad;
    (destruct (images_build_result dk dockerfile _) as [e|image]; run_monad;
     [tidy_events; reflexivity|]);
    (destruct (attrs_RepoTags image) as [|image_name rest]; run_monad;
     [tidy_events; reflexivity|]);
    destruct (output =? "image-id"), (output =? "image-name"),
      (output =? "dockerfile"); run_monad; tidy_events; reflexivity.
Qed.

Lemma output_not_docker_call (evs : list Event) :
  forallb is_output evs = true ->
  forallb (fun ev => negb (is_docker_call ev) && negb (is_uuid_draw ev)) evs = true.
Proof.
  induction evs as [|ev evs IH]; [reflexivity|]. cbn [forallb].
  intros H. apply andb_true_iff in H as [H1 H2].
  rewrite (IH H2), andb_true_r. now destruct ev.
Qed.

(** The four ways a run of [build] can go. *)
Lemma build_run_cases (util : Util) (from_ : string)
    (apt pip3 with_kubectl : option string) (name : string) (dry_run : bool)
    (output : string) (w : World) :
  let dockerfile := build_dockerfile util from_ apt pip3 with_kubectl in
  exists n new,
    snd (build util from_ apt pip3 with_kubectl name dry_run output w) = after w n new
    /\ (new = outputs output None None dockerfile
        \/ new = [EvFromEnv]
        \/ new = build_calls name dockerfile w
        \/ exists image_id image_name,
             new = (build_calls name dockerfile w
                    ++ outputs output (Some image_id) (Some image_name) dockerfile)%list).
Proof.
  intros dockerfile. destruct dry_run.
  - rewrite build_dry. do 2 eexists. split; [reflexivity|]. now left.
  - destruct (from_env_result (docker w)) as [e|] eqn:Henv.
    + rewrite (build_no_client _ _ _ _ _ _ _ _ _ Henv).
      do 2 eexists. split; [reflexivity|]. right. now left.
    + rewrite (build_real _ _ _ _ _ _ _ _ Henv). fold dockerfile.
      destruct (images_build_result _ _ _) as [e|image];
        [do 2 eexists; split; [reflexivity|]; right; right; now left|].
      destruct (attrs_RepoTags image) as [|image_name rest];
        [do 2 eexists; split; [reflexivity|]; right; right; now left|].
      do 2 eexists. split; [reflexivity|]. right; right; right.
      now exists (attrs_Id image), image_name.
Qed.

Lemma submitted_app (a b : list Event) :
  submitted (a ++ b) = (submitted a ++ submitted b)%list.
Proof. apply flat_map_app. Qed.

Lemma dockerfile_texts_app (a b : list Event) :
  dockerfile_texts (a ++ b) = (dockerfile_texts a ++ dockerfile_texts b)%list.
Proof. apply flat_map_app. Qed.

Lemma submitted_outputs (output : string) (i n : option string) (t : string) :
  submitted (outputs output i n t) = [].
Proof.
  unfold outputs.
  destruct (output =? "image-id"), (output =? "image-name"),
    (output =? "dockerfile"); reflexivity.
Qed.

Lemma submitted_build_calls (name dockerfile : string) (w : World) :
  submitted (build_calls name dockerfile w) = [(dockerfile, submitted_tag name w)].
Proof.
  unfold build_calls, name_draws. destruct (name =? "random"); reflexivity.
Qed.

Lemma dockerfile_texts_build_calls (name dockerfile : string) (w : World) :
  dockerfile_texts (build_calls name dockerfile w) = [Some dockerfile].
Proof.
  unfold build_calls, name_draws. destruct (name =? "random"); reflexivity.
Qed.

(** Whatever a run of [build] hands to the daemon is the composed text. *)
Lemma build_submits_dockerfile (util : Util) (from_ : string)
    (apt pip3 with_kubectl : option string) (name : string) (dry_run : bool)
    (output : string) (rnd : nat -> N) (d : Docker) :
  let dockerfile := build_dockerfile util from_ apt pip3 with_kubectl in
  let evs := run (build util from_ apt pip3 with_kubectl name dry_run output)
               (boot rnd d) in
  evs = [] \/ submitted evs = []
  \/ submitted evs = [(dockerfile, submitted_tag name (boot rnd d))].
Proof.
  intros dockerfile evs. unfold evs, run.
  destruct (build_run_cases util from_ apt pip3 with_kubectl name dry_run output
              (boot rnd d)) as (n & new & -> & H).
  fold dockerfile in H. cbn [after events boot app].
  destruct H as [->|[->|[->|(i & nm & ->)]]].
  - right; left. apply submitted_outputs.
  - right; left. reflexivity.
  - right; right. apply submitted_build_calls.
  - right; right.
    now rewrite submitted_app, submitted_build_calls, submitted_outputs.
Qed.

(** With [--output=dockerfile], every text a run lets out is the composed
    text. *)
Lemma build_texts (util : Util) (from_ : string)
    (apt pip3 with_kubectl : option string) (name : string) (dry_run : bool)
    (rnd : nat -> N) (d : Docker) :
  let dockerfile := build_dockerfile util from_ apt pip3 with_kubectl in
  Forall (eq (Some dockerfile))
    (dockerfile_texts
       (run (build util from_ apt pip3 with_kubectl name dry_run "dockerfile")
          (boot rnd d))).
Proof.
  intros dockerfile. unfold run.
  destruct (build_run_cases util from_ apt pip3 with_kubectl name dry_run
              "dockerfile" (boot rnd d)) as (n & new & -> & H).
  fold dockerfile in H. cbn [after events boot app].
  destruct H as [->|[->|[->|(i & nm & ->)]]].
  - repeat constructor.
  - constructor.
  - rewrite dockerfile_texts_build_calls. repeat constructor.
  - rewrite dockerfile_texts_app, dockerfile_texts_build_calls.
    repeat constructor.
Qed.

End RunFacts.

(* ================================================================= *)
(** * Claims about [build] *)

Import RunFacts UuidFacts.

(** C1: the Dockerfile text is a function of the base image, the apt and pip
    package lists and the kubectl version alone.  Two runs with these four
    equal let out the same text - to the daemon and to standard output -
    whatever the image name, the dry-run flag, the random source and the
    daemon are; a dry run prints exactly that text. *)
Theorem dockerfile_text_deterministic (util : Util) (from_ : string)
    (apt pip3 with_kubectl : option string)
    (name1 name2 : string) (dry_run1 dry_run2 : bool)
    (rnd1 rnd2 : nat -> N) (d1 d2 : Docker) :
  let dockerfile := build_dockerfile util from_ apt pip3 with_kubectl in
  let run1 := run (build util from_ apt pip3 with_kubectl name1 dry_run1 "dockerfile")
                (boot rnd1 d1) in
  let run2 := run (build util from_ apt pip3 with_kubectl name2 dry_run2 "dockerfile")
                (boot rnd2 d2) in
  Forall (fun text1 => Forall (fun text2 => text1 = text2) (dockerfile_texts run2))
    (dockerfile_texts run1)
  /\ Forall (eq (Some dockerfile)) (dockerfile_texts run1)
  /\ Forall (eq (Some dockerfile)) (dockerfile_texts run2)
  /\ (forall output,
        Forall (fun submission => fst submission = dockerfile)
          (submitted
             (run (build util from_ apt pip3 with_kubectl name1 dry_run1 output)
                (boot rnd1 d1))))
  /\ run (build util from_ apt pip3 with_kubectl name1 true "dockerfile") (boot rnd1 d1)
     = [EvEcho (Some dockerfile)]
  /\ run (build util from_ apt pip3 with_kubectl name2 true "dockerfile") (boot rnd2 d2)
     = [EvEcho (Some dockerfile)].
Proof.
  intros dockerfile run1 run2.
  pose proof (build_texts util from_ apt pip3 with_kubectl name1 dry_run1 rnd1 d1) as H1.
  pose proof (build_texts util from_ apt pip3 with_kubectl name2 dry_run2 rnd2 d2) as H2.
  cbv zeta in H1, H2. fold dockerfile run1 in H1. fold dockerfile run2 in H2.
  split; [|split; [exact H1|split; [exact H2|split]]].
  - rewrite Forall_forall in H1, H2.
    apply Forall_forall; intros t1 Ht1. apply Forall_forall; intros t2 Ht2.
    now rewrite <- (H1 _ Ht1), <- (H2 _ Ht2).
  - intros output.
    destruct (build_submits_dockerfile util from_ apt pip3 with_kubectl name1
                dry_run1 output rnd1 d1) as [ E | [ E | E ] ];
      rewrite E; repeat constructor.
  - unfold run. rewrite !build_dry. split; reflexivity.
Qed.

(** C5: with [dry_run] set no call reaches the container runtime and nothing
    random is drawn; [--output=dockerfile] prints the text, which is not
    empty and holds the base image reference; [image-id] and [image-name]
    print the null value. *)
Theorem dry_run_never_builds (util : Util)
    (Hbase : base_embeds util) (Hlabel : label_given util)
    (from_ : string) (apt pip3 with_kubectl : option string) (name : string)
    (w : World) :
  let dockerfile := build_dockerfile util from_ apt pip3 with_kubectl in
  build util from_ apt pip3 with_kubectl name true "dockerfile" w
  = (Ok tt, after w (drawn w) [EvEcho (Some dockerfile)])
  /\ dockerfile <> ""
  /\ contains from_ dockerfile = true
  /\ build util from_ apt pip3 with_kubectl name true "image-id" w
     = (Ok tt, after w (drawn w) [EvEcho None])
  /\ build util from_ apt pip3 with_kubectl name true "image-name" w
     = (Ok tt, after w (drawn w) [EvEcho None])
  /\ forall output,
       exists out,
         build util from_ apt pip3 with_kubectl name true output w
         = (Ok tt, after w (drawn w) out)
         /\ forallb (fun ev => negb (is_docker_call ev) && negb (is_uuid_draw ev)) out
            = true.
Proof.
  intros dockerfile.
  pose proof (base_piece util from_ apt pip3 with_kubectl) as Hin.
  destruct (Hbase from_ (get_dugaire_image_label util (Some "dockerfile")))
    as [Hfrom Hlab].
  split; [apply build_dry|].
  split.
  - apply contains_nonempty with (get_dugaire_image_label util (Some "dockerfile"));
      [exact Hlabel|].
    eapply piece_in_dockerfile; [exact Hin | exact Hlab].
  - split; [eapply piece_in_dockerfile; [exact Hin | exact Hfrom]|].
    split; [apply build_dry|]. split; [apply build_dry|].
    intros output. eexists. split; [apply build_dry|].
    apply output_not_docker_call, outputs_are_output.
Qed.

Lemma dry_run_never_builds_witness :
  run (build Sample.util "ubuntu:18.04" (Some "curl,nano") None None "random" true
         "dockerfile") (Sample.world 7 [])
  = [EvEcho (Some (build_dockerfile Sample.util "ubuntu:18.04" (Some "curl,nano")
                     None None))]
  /\ Py.contains "ubuntu:18.04"
       (build_dockerfile Sample.util "ubuntu:18.04" (Some "curl,nano") None None)
     = true.
Proof.
  assert (Hb : base_embeds Sample.util).
  { intros from_ label. split.
    - apply (contains_intro "FROM ").
    - apply (contains_app_r label "FROM "), (contains_app_r label from_),
        (contains_app_r label Sample.nl), (contains_intro "LABEL "). }
  assert (Hl : label_given Sample.util) by discriminate.
  destruct (dry_run_never_builds Sample.util Hb Hl "ubuntu:18.04" (Some "curl,nano")
              None None "random" (Sample.world 7 [])) as (H1 & _ & H3 & _).
  split; [|exact H3].
  unfold run. rewrite H1. reflexivity.
Defined.

(** C7: a build that is not a dry run and whose name is the sentinel
    [random] draws two UUIDs - after the client is obtained and before the
    submission - and submits under [dug-<first>:<second>]; an explicit name
    is submitted unchanged and nothing is drawn; nothing is drawn either in
    a dry run or when no client can be had. *)
Theorem random_name_at_build_time (util : Util) (from_ : string)
    (apt pip3 with_kubectl : option string) (output : string) (w : World) :
  let dockerfile := build_dockerfile util from_ apt pip3 with_kubectl in
  let u1 := Uuid.uuid4_int (urandom16 w (drawn w)) in
  let u2 := Uuid.uuid4_int (urandom16 w (S (drawn w))) in
  let random_name := take 8 (Uuid.str u1) in
  let random_tag := take 8 (Uuid.str u2) in
  (from_env_result (docker w) = None ->
   exists out,
     snd (build util from_ apt pip3 with_kubectl "random" false output w)
     = after w (drawn w + 2)
         ([EvFromEnv; EvUuid4 u1; EvUuid4 u2;
           EvImagesBuild dockerfile ("dug-" ++ random_name ++ ":" ++ random_tag)]
          ++ out)
     /\ forallb is_output out = true)
  /\ (forall name,
        name <> "random" -> from_env_result (docker w) = None ->
        exists out,
          snd (build util from_ apt pip3 with_kubectl name false output w)
          = after w (drawn w) ([EvFromEnv; EvImagesBuild dockerfile name] ++ out)
          /\ forallb is_output out = true)
  /\ (forall name,
        exists out,
          snd (build util from_ apt pip3 with_kubectl name true output w)
          = after w (drawn w) out
          /\ forallb is_output out = true)
  /\ (forall name e,
        from_env_result (docker w) = Some e ->
        snd (build util from_ apt pip3 with_kubectl name false output w)
        = after w (drawn w) [EvFromEnv]).
Proof.
  intros dockerfile u1 u2 random_name random_tag.
  split; [|split; [|split]].
  - intros Henv. rewrite (build_real _ _ _ _ _ _ _ _ Henv). fold dockerfile.
    unfold build_calls, submitted_tag, name_draws, drawn_after, next_uuid.
    cbn [String.eqb Ascii.eqb Bool.eqb]. rewrite Nat.add_0_r, Nat.add_1_r.
    fold u1 u2. fold random_name random_tag.
    destruct (images_build_result _ _ _) as [e|image];
      [exists []; split; [reflexivity | reflexivity]|].
    destruct (attrs_RepoTags image) as [|image_name rest];
      [exists []; split; [reflexivity | reflexivity]|].
    eexists. split; [reflexivity | apply outputs_are_output].
  - intros name Hname Henv. rewrite (build_real _ _ _ _ _ _ _ _ Henv).
    fold dockerfile.
    unfold build_calls, submitted_tag, name_draws, drawn_after.
    apply String.eqb_neq in Hname. rewrite Hname.
    destruct (images_build_result _ _ _) as [e|image];
      [exists []; split; [reflexivity | reflexivity]|].
    destruct (attrs_RepoTags image) as [|image_name rest];
      [exists []; split; [reflexivity | reflexivity]|].
    eexists. split; [reflexivity | apply outputs_are_output].
  - intros name. rewrite build_dry. eexists.
    split; [reflexivity | apply outputs_are_output].
  - intros name e Henv. now rewrite (build_no_client _ _ _ _ _ _ _ _ _ Henv).
Qed.

Lemma random_name_at_build_time_witness :
  submitted (run (build Sample.util "ubuntu:18.04" None None None "random" false
                    "image-id") (Sample.world 7 []))
  = [(build_dockerfile Sample.util "ubuntu:18.04" None None None,
      "dug-" ++ Py.take 8 (Uuid.str (Uuid.uuid4_int (Sample.random 7 0))) ++ ":"
      ++ Py.take 8 (Uuid.str (Uuid.uuid4_int (Sample.random 7 1))))]
  /\ submitted (run (build Sample.util "ubuntu:18.04" None None None "tools:1.0" false
                       "image-id") (Sample.world 7 []))
     = [(build_dockerfile Sample.util "ubuntu:18.04" None None None, "tools:1.0")].
Proof.
  destruct (random_name_at_build_time Sample.util "ubuntu:18.04" None None None
              "image-id" (Sample.world 7 [])) as (H1 & H2 & _).
  destruct (H1 eq_refl) as (out1 & E1 & O1).
  destruct (H2 "tools:1.0") as (out2 & E2 & O2); [discriminate | reflexivity |].
  unfold run. rewrite E1, E2. cbn [after events Sample.world].
  rewrite !submitted_app.
  assert (S1 : submitted out1 = []).
  { clear E1. induction out1 as [|[] ? IH]; try discriminate O1; auto. }
  assert (S2 : submitted out2 = []).
  { clear E2. induction out2 as [|[] ? IH]; try discriminate O2; auto. }
  rewrite S1, S2. split; reflexivity.
Defined.

(** C10: a generated name is [dug-], the first eight characters of one UUID4
    string, a colon, and the first eight characters of a second UUID4 string
    drawn after it; both runs of eight are hex digits, and the tag [build]
    submits for the sentinel name has this shape. *)
Theorem random_tag_shape (w : World) :
  (exists s1 s2,
     outcome random_image_name w = Ok ("dug-" ++ s1 ++ ":" ++ s2)
     /\ s1 = take 8 (Uuid.str (Uuid.uuid4_int (urandom16 w (drawn w))))
     /\ s2 = take 8 (Uuid.str (Uuid.uuid4_int (urandom16 w (S (drawn w)))))
     /\ String.length s1 = 8 /\ String.length s2 = 8
     /\ all_chars Uuid.is_hex s1 = true /\ all_chars Uuid.is_hex s2 = true
     /\ String.length ("dug-" ++ s1 ++ ":" ++ s2) = 21
     /\ drawn (snd (random_image_name w)) = drawn w + 2)
  /\ forall util from_ apt pip3 with_kubectl output,
       Forall (fun submission => tag_shape (snd submission))
         (submitted
            (run (build util from_ apt pip3 with_kubectl "random" false output)
               (boot (urandom16 w) (docker w)))).
Proof.
  split.
  - destruct w as [r d dk evs]. run_monad.
    do 2 eexists. split; [reflexivity|].
    split; [reflexivity|]. split; [reflexivity|].
    split; [apply str_take8_length|]. split; [apply str_take8_length|].
    split; [apply str_take8_is_hex|]. split; [apply str_take8_is_hex|].
    split; [|lia].
    rewrite !length_app, !str_take8_length. reflexivity.
  - intros util from_ apt pip3 with_kubectl output.
    destruct (build_submits_dockerfile util from_ apt pip3 with_kubectl "random"
                false output (urandom16 w) (docker w)) as [ E | [ E | E ] ];
      rewrite E; try constructor; [|constructor].
    cbn [snd]. unfold submitted_tag. cbn [String.eqb Ascii.eqb Bool.eqb].
    do 2 eexists. split; [reflexivity|].
    split; [apply str_take8_length|]. split; [apply str_take8_length|].
    split; apply str_take8_is_hex.
Qed.

(* ================================================================= *)
(** * Running [list_] *)

Module ListFacts.
Import RunFacts.

(** The loop of [list_] appends one row per image. *)
Lemma loop_rows (short : bool) (images : list Image) (init : list row) :
  fold_left (fun (print_images : list row) image =>
               print_images
               ++ [(shown_id short (Image_id image), Image_tags image)])%list
            images init
  = (init ++ table_rows short images)%list.
Proof.
  revert init; induction images as [|image images IH]; intros init; simpl.
  - now rewrite List.app_nil_r.
  - rewrite IH, <- List.app_assoc. reflexivity.
Qed.

(** A listing whose daemon answers. *)
Lemma list_run (util : Util) (short : bool) (w : World) (images : list Image) :
  from_env_result (docker w) = None ->
  images_list_result (docker w) [get_dugaire_image_label util None] = inr images ->
  list_ util short w
  = (Ok tt,
     after w (drawn w)
       [EvFromEnv; EvImagesList [get_dugaire_image_label util None];
        match images with
        | [] => EvEcho (Some none_found)
        | _ :: _ =>
            EvPrint (custom_tabulate util (table_rows short images)
                       ["Image ID"; "Image tags"])
        end]).
Proof.
  destruct w as [r d dk evs]. cbn [docker]. intros Henv Hlist.
  unfold list_. run_monad. rewrite Henv. run_monad. rewrite Hlist. run_monad.
  rewrite loop_rows. cbn [app].
  destruct images as [|image images]; cbn [table_rows map List.length Nat.eqb negb];
    run_monad; tidy_events; reflexivity.
Qed.

(** A listing whose daemon cannot be reached prints nothing. *)
Lemma list_no_client (util : Util) (short : bool) (w : World) (e : exn) :
  from_env_result (docker w) = Some e ->
  list_ util short w = (Raise e, after w (drawn w) [EvFromEnv]).
Proof.
  destruct w as [r d dk evs]. cbn [docker]. intros Henv.
  unfold list_. run_monad. rewrite Henv. run_monad. reflexivity.
Qed.

Import Py PyFacts.

(** On identifiers that carry the algorithm prefix at the front only, the
    code's replace-then-cut is the specification's strip-then-cut. *)
Lemma shown_id_short_form (image_id : string) :
  prefix_only_leading image_id -> shown_id true image_id = short_form image_id.
Proof.
  unfold prefix_only_leading, shown_id, short_form, strip_prefix. intros H.
  destruct (prefix "sha256:" image_id) eqn:E.
  - apply prefix_inv in E as [r ->].
    change (drop (String.length "sha256:") ("sha256:" ++ r)) with r in H |- *.
    rewrite replace_leading by discriminate.
    rewrite replace_absent by (discriminate || exact H). reflexivity.
  - rewrite replace_absent by (discriminate || exact H). reflexivity.
Qed.

(** Identifiers in the runtime's format have the prefix at the front only,
    and their short form has exactly twelve characters. *)
Lemma docker_id_short_form (image_id : string) :
  is_docker_id image_id = true ->
  prefix_only_leading image_id
  /\ short_form image_id = take 12 (drop 7 image_id)
  /\ String.length (short_form image_id) = 12.
Proof.
  unfold is_docker_id, prefix_only_leading, short_form, strip_prefix. intros H.
  apply andb_true_iff in H as [H Hhex]. apply andb_true_iff in H as [Hp Hlen].
  rewrite Hp. change (String.length "sha256:") with 7.
  apply Nat.eqb_eq in Hlen.
  apply prefix_inv in Hp as [r ->].
  change (drop 7 ("sha256:" ++ r)) with r in Hhex |- *.
  rewrite length_app in Hlen. simpl in Hlen.
  split; [|split; [reflexivity|]].
  - apply (contains_needs_first Uuid.is_hex); [reflexivity | exact Hhex].
  - rewrite take_length. lia.
Qed.

End ListFacts.

(* ================================================================= *)
(** * Claims about [list_] *)

Import ListFacts.

(** C8: when the query for marker-labelled images answers with no image,
    [list_] echoes the none-found message and prints no table; when it
    answers with at least one, [list_] prints the table under the two
    headers Image ID and Image tags, one row of identifier and tags per
    image, and does not echo the none-found message. *)
Theorem list_none_found_or_table (util : Util) (short : bool) (w : World)
    (images : list Image)
    (Henv : from_env_result (docker w) = None)
    (Hlist : images_list_result (docker w) [get_dugaire_image_label util None]
             = inr images) :
  let label := get_dugaire_image_label util None in
  let rows := table_rows short images in
  (images = [] ->
   list_ util short w
   = (Ok tt, after w (drawn w)
               [EvFromEnv; EvImagesList [label]; EvEcho (Some none_found)]))
  /\ (images <> [] ->
      list_ util short w
      = (Ok tt, after w (drawn w)
                  [EvFromEnv; EvImagesList [label];
                   EvPrint (custom_tabulate util rows ["Image ID"; "Image tags"])])
      /\ List.length rows = List.length images
      /\ map snd rows = map Image_tags images)
  /\ none_found = "No images built with dugaire found.".
Proof.
  intros label rows. rewrite (list_run util short w images Henv Hlist).
  fold label. fold rows.
  split; [intros ->; reflexivity|]. split; [|reflexivity].
  intros Hne. destruct images as [|image images]; [now elim Hne|].
  split; [reflexivity|]. unfold rows, table_rows.
  split; [apply length_map | now rewrite map_map].
Qed.

Lemma list_none_found_or_table_witness :
  run (list_ Sample.util true) (Sample.world 7 [])
  = [EvFromEnv; EvImagesList ["builtwith=dugaire"];
     EvEcho (Some "No images built with dugaire found.")]
  /\ run (list_ Sample.util true) (Sample.world 7 [Sample.image1; Sample.image2])
     = [EvFromEnv; EvImagesList ["builtwith=dugaire"];
        EvPrint (Sample.tabulate
                   [("aaaabbbbcccc", ["dug-1a2b3c4d:5e6f7a8b"]);
                    ("0f1e2d3c4b5a", ["tools:1.0"])]
                   ["Image ID"; "Image tags"])].
Proof.
  destruct (list_none_found_or_table Sample.util true (Sample.world 7 []) []
              eq_refl eq_refl) as (H1 & _ & _).
  destruct (list_none_found_or_table Sample.util true
              (Sample.world 7 [Sample.image1; Sample.image2])
              [Sample.image1; Sample.image2] eq_refl eq_refl) as (_ & H2 & _).
  destruct H2 as (H2 & _); [discriminate|].
  unfold run. rewrite (H1 eq_refl), H2. split; reflexivity.
Defined.

(** C9: with the short option on, its default, the identifier shown for an
    image is the identifier without its leading [sha256:] cut to twelve
    characters; with the short option off it is the full identifier. *)
Theorem list_shows_short_or_full_id (util : Util) (w : World)
    (images : list Image)
    (Henv : from_env_result (docker w) = None)
    (Hlist : images_list_result (docker w) [get_dugaire_image_label util None]
             = inr images)
    (Hne : images <> [])
    (Hids : Forall (fun image => prefix_only_leading (Image_id image)) images) :
  let label := get_dugaire_image_label util None in
  short_default = true
  /\ list_ util short_default w
     = (Ok tt, after w (drawn w)
                 [EvFromEnv; EvImagesList [label];
                  EvPrint
                    (custom_tabulate util
                       (map (fun image => (short_form (Image_id image), Image_tags image))
                          images)
                       ["Image ID"; "Image tags"])])
  /\ list_ util false w
     = (Ok tt, after w (drawn w)
                 [EvFromEnv; EvImagesList [label];
                  EvPrint
                    (custom_tabulate util
                       (map (fun image => (Image_id image, Image_tags image)) images)
                       ["Image ID"; "Image tags"])])
  /\ Forall (fun image =>
               is_docker_id (Image_id image) = true ->
               short_form (Image_id image) = take 12 (drop 7 (Image_id image))
               /\ String.length (short_form (Image_id image)) = 12) images.
Proof.
  intros label. split; [reflexivity|].
  assert (Hrows : table_rows short_default images
                  = map (fun image => (short_form (Image_id image), Image_tags image))
                      images).
  { unfold short_default, table_rows.
    apply map_ext_in. intros i Hi. f_equal.
    apply shown_id_short_form.
    rewrite Forall_forall in Hids. now apply Hids. }
  rewrite !(list_run util _ w images Henv Hlist), Hrows. fold label.
  destruct images as [|image images]; [now elim Hne|].
  split; [reflexivity|]. split; [reflexivity|].
  - apply Forall_forall. intros i _ Hi.
    now destruct (docker_id_short_form _ Hi) as (_ & H1 & H2).
Qed.

Lemma list_shows_short_or_full_id_witness :
  run (list_ Sample.util true) (Sample.world 7 [Sample.image1; Sample.image2])
  = [EvFromEnv; EvImagesList ["builtwith=dugaire"];
     EvPrint (Sample.tabulate
                [("aaaabbbbcccc", ["dug-1a2b3c4d:5e6f7a8b"]);
                 ("0f1e2d3c4b5a", ["tools:1.0"])]
                ["Image ID"; "Image tags"])]
  /\ run (list_ Sample.util false) (Sample.world 7 [Sample.image1; Sample.image2])
     = [EvFromEnv; EvImagesList ["builtwith=dugaire"];
        EvPrint (Sample.tabulate
                   [(attrs_Id Sample.image1, ["dug-1a2b3c4d:5e6f7a8b"]);
                    (attrs_Id Sample.image2, ["tools:1.0"])]
                   ["Image ID"; "Image tags"])].
Proof.
  assert (Hids : Forall (fun image => prefix_only_leading (Image_id image))
                   [Sample.image1; Sample.image2]).
  { repeat constructor; reflexivity. }
  destruct (list_shows_short_or_full_id Sample.util
              (Sample.world 7 [Sample.image1; Sample.image2])
              [Sample.image1; Sample.image2] eq_refl eq_refl
              ltac:(discriminate) Hids) as (_ & H1 & H2 & _).
  unfold run. change true with short_default at 1. rewrite H1, H2.
  split; reflexivity.
Defined.

(* ================================================================= *)
(** * Worked examples on the sample [util] *)

Example sample_dockerfile :
  build_dockerfile Sample.util "ubuntu:18.04" (Some "curl,nano") (Some "")
    (Some "1.17.0")
  = "FROM ubuntu:18.04" ++ Sample.nl
    ++ "LABEL builtwith=dugaire" ++ Sample.nl
    ++ "RUN apt-get update && apt-get install -y curl nano" ++ Sample.nl
    ++ "RUN curl -LO https://storage.googleapis.com/kubernetes-release/release/v1.17.0/bin/linux/amd64/kubectl"
    ++ Sample.nl.
Proof. reflexivity. Qed.

Example sample_pieces :
  map fst (build_pieces Sample.util "ubuntu:18.04" None (Some "ansible") (Some "latest"))
  = ["base.j2"; "pip3.j2"; "with_kubectl.j2"].
Proof. reflexivity. Qed.

Example sample_build_random_name :
  submitted (run (build Sample.util from_default (Some "curl,nano") None None
                    name_default dry_run_default output_default)
               (Sample.world 7 []))
  = [(build_dockerfile Sample.util "ubuntu:18.04" (Some "curl,nano") None None,
      "dug-f68ca6d8:955e3bb3")].
Proof. vm_compute. reflexivity. Qed.

Example sample_build_prints_image_id :
  dockerfile_texts
    (run (build Sample.util from_default (Some "curl,nano") None None
            "tools:1.0" dry_run_default output_default) (Sample.world 7 []))
  = [Some (build_dockerfile Sample.util "ubuntu:18.04" (Some "curl,nano") None None);
     Some "sha256:0123456789abcdef0123456789abcdef0123456789abcdef0123456789abcdef"].
Proof. vm_compute. reflexivity. Qed.

Example sample_build_no_daemon :
  outcome (build Sample.util from_default None None None name_default false
             output_default)
    (mkWorld (Sample.random 1) 0 Sample.no_daemon [])
  = Raise (DockerError "connection refused").
Proof. reflexivity. Qed.

Example sample_uuid_str :
  Uuid.str (Uuid.uuid4_int (Sample.random 7 0)) = "f68ca6d8-cd94-4268-aa59-315db67066a8".
Proof. vm_compute. reflexivity. Qed.

Example sample_docker_ids :
  is_docker_id (Image_id Sample.image1) = true
  /\ is_docker_id (Image_id Sample.image2) = true.
Proof. split; reflexivity. Qed.

(** Away from the runtime's identifier format the code removes every
    [sha256:], not only a leading one. *)
Example shown_id_inner_occurrence :
  shown_id true "0123sha256:4567" = "01234567"
  /\ short_form "0123sha256:4567" = "0123sha256:4".
Proof. split; reflexivity. Qed.

(* ================================================================= *)
(** * Further facts about strings *)

Module MoreFacts.
Import Py PyFacts RunFacts ListFacts.

Lemma app_inv_head (a b c : string) : a ++ b = a ++ c -> b = c.
Proof.
  induction a as [|x a IH]; simpl; intros H; [exact H|].
  injection H as H. now apply IH.
Qed.

Lemma app_inv_tail (a b c : string) : a ++ c = b ++ c -> a = b.
Proof.
  revert b; induction a as [|x a IH]; intros [|y b] H; simpl in H.
  - reflexivity.
  - apply (f_equal String.length) in H. simpl in H. rewrite length_app in H. lia.
  - apply (f_equal String.length) in H. simpl in H. rewrite length_app in H. lia.
  - injection H as -> H. f_equal. now apply IH.
Qed.

Lemma prefix_refl (s : string) : prefix s s = true.
Proof. rewrite <- (app_nil_r s) at 2. apply prefix_app. Qed.

Lemma prefix_app_l (p a b : string) : prefix p a = true -> prefix p (a ++ b) = true.
Proof.
  intros H. apply prefix_inv in H as [r ->]. rewrite app_assoc. apply prefix_app.
Qed.

Lemma take_rest (n : nat) (s : string) : exists r, s = take n s ++ r.
Proof.
  unfold take. revert s; induction n as [|n IH]; intros [|c s]; simpl.
  - now exists "".
  - now exists (String c s).
  - now exists "".
  - destruct (IH s) as [r Hr]. exists r. now rewrite <- Hr.
Qed.




(** Deleting occurrences never lengthens a string. *)
Lemma replace_from_delete_length (old s : string) :
  forall k, String.length (replace_from old "" k s) <= String.length s.
Proof.
  induction s as [|c s IH]; intros k; [simpl; lia|].
  cbn [replace_from]. destruct k as [|k].
  - destruct (prefix old (String c s)).
    + simpl (_ ++ _). specialize (IH (String.length old - 1)). simpl. lia.
    + specialize (IH 0). simpl. lia.
  - specialize (IH k). simpl. lia.
Qed.

Lemma outputs_length (output : string) (i n : option string) (t : string) :
  List.length (outputs output i n t) <= 1.
Proof.
  unfold outputs.
  destruct (String.eqb_spec output "image-id") as [->|_]; [simpl; lia|].
  destruct (String.eqb_spec output "image-name") as [->|_]; [simpl; lia|].
  destruct (output =? "dockerfile"); simpl; lia.
Qed.

Lemma filter_outputs (output : string) (i n : option string) (t : string) :
  filter is_output (outputs output i n t) = outputs output i n t.
Proof.
  unfold outputs.
  destruct (output =? "image-id"), (output =? "image-name"),
    (output =? "dockerfile"); reflexivity.
Qed.

Lemma docker_calls_outputs (output : string) (i n : option string) (t : string) :
  filter is_docker_call (outputs output i n t) = [].
Proof.
  unfold outputs.
  destruct (output =? "image-id"), (output =? "image-name"),
    (output =? "dockerfile"); reflexivity.
Qed.

Lemma filter_output_build_calls (name dockerfile : string) (w : World) :
  filter is_output (build_calls name dockerfile w) = [].
Proof. unfold build_calls, name_draws. destruct (name =? "random"); reflexivity. Qed.

Lemma docker_calls_build_calls (name dockerfile : string) (w : World) :
  filter is_docker_call (build_calls name dockerfile w)
  = [EvFromEnv; EvImagesBuild dockerfile (submitted_tag name w)].
Proof. unfold build_calls, name_draws. destruct (name =? "random"); reflexivity. Qed.

(** A listing whose query the daemon refuses. *)
Lemma list_query_fails (util : Util) (short : bool) (w : World) (e : exn) :
  from_env_result (docker w) = None ->
  images_list_result (docker w) [get_dugaire_image_label util None] = inl e ->
  list_ util short w
  = (Raise e, after w (drawn w)
                [EvFromEnv; EvImagesList [get_dugaire_image_label util None]]).
Proof.
  destruct w as [r d dk evs]. cbn [docker]. intros Henv Hlist.
  unfold list_. run_monad. rewrite Henv. run_monad. rewrite Hlist. run_monad.
  tidy_events. reflexivity.
Qed.

End MoreFacts.

(* ================================================================= *)
(** * Further properties of [build] *)

Import MoreFacts.

(** X1: when [client.images.build] raises, [build] raises the same
    exception right after the submission and echoes nothing, whatever
    [--output] is. *)
Theorem build_error_is_propagated (util : Util) (from_ : string)
    (apt pip3 with_kubectl : option string) (name output : string) (w : World)
    (e : exn)
    (Henv : from_env_result (docker w) = None)
    (Hbuild : images_build_result (docker w)
                (build_dockerfile util from_ apt pip3 with_kubectl)
                (submitted_tag name w) = inl e) :
  let dockerfile := build_dockerfile util from_ apt pip3 with_kubectl in
  build util from_ apt pip3 with_kubectl name false output w
  = (Raise e, after w (drawn_after name w) (build_calls name dockerfile w))
  /\ filter is_output (build_calls name dockerfile w) = []
  /\ submitted (build_calls name dockerfile w) = [(dockerfile, submitted_tag name w)].
Proof.
  intros dockerfile. rewrite (build_real _ _ _ _ _ _ _ _ Henv).
  fold dockerfile in Hbuild |- *. rewrite Hbuild.
  split; [reflexivity|].
  split; [apply filter_output_build_calls | apply submitted_build_calls].
Qed.

Lemma build_error_is_propagated_witness :
  outcome (build Sample.util "ubuntu:18.04" (Some "curl") None None "tools:1.0" false
             "dockerfile") (Faulty.world Faulty.build_fails)
  = Raise (DockerError "build failed")
  /\ run (build Sample.util "ubuntu:18.04" (Some "curl") None None "tools:1.0" false
            "dockerfile") (Faulty.world Faulty.build_fails)
     = [EvFromEnv;
        EvImagesBuild (build_dockerfile Sample.util "ubuntu:18.04" (Some "curl") None None)
          "tools:1.0"].
Proof.
  destruct (build_error_is_propagated Sample.util "ubuntu:18.04" (Some "curl") None None
              "tools:1.0" "dockerfile" (Faulty.world Faulty.build_fails)
              (DockerError "build failed") eq_refl eq_refl) as (H & _).
  unfold outcome, run. rewrite H. split; reflexivity.
Defined.

(** X2: when the daemon returns an image with an empty [RepoTags] list,
    [build] raises [IndexError] after the image was built and echoes
    nothing, not even for [--output=image-id] or [--output=dockerfile]. *)
Theorem build_untagged_image_raises (util : Util) (from_ : string)
    (apt pip3 with_kubectl : option string) (name output : string) (w : World)
    (image : Image)
    (Henv : from_env_result (docker w) = None)
    (Hbuild : images_build_result (docker w)
                (build_dockerfile util from_ apt pip3 with_kubectl)
                (submitted_tag name w) = inr image)
    (Htags : attrs_RepoTags image = []) :
  let dockerfile := build_dockerfile util from_ apt pip3 with_kubectl in
  build util from_ apt pip3 with_kubectl name false output w
  = (Raise IndexError, after w (drawn_after name w) (build_calls name dockerfile w))
  /\ filter is_output (build_calls name dockerfile w) = []
  /\ submitted (build_calls name dockerfile w) = [(dockerfile, submitted_tag name w)].
Proof.
  intros dockerfile. rewrite (build_real _ _ _ _ _ _ _ _ Henv).
  fold dockerfile in Hbuild |- *. rewrite Hbuild, Htags.
  split; [reflexivity|].
  split; [apply filter_output_build_calls | apply submitted_build_calls].
Qed.

Lemma build_untagged_image_raises_witness :
  outcome (build Sample.util "ubuntu:18.04" None None None "tools:1.0" false "image-id")
    (Faulty.world Faulty.untagged)
  = Raise IndexError
  /\ dockerfile_texts
       (run (build Sample.util "ubuntu:18.04" None None None "tools:1.0" false
               "image-id") (Faulty.world Faulty.untagged))
     = [Some (build_dockerfile Sample.util "ubuntu:18.04" None None None)].
Proof.
  destruct (build_untagged_image_raises Sample.util "ubuntu:18.04" None None None
              "tools:1.0" "image-id" (Faulty.world Faulty.untagged)
              (mkImage "sha256:0123456789abcdef0123456789abcdef0123456789abcdef0123456789abcdef" [])
              eq_refl eq_refl eq_refl) as (H & _).
  unfold outcome, run. rewrite H. split; reflexivity.
Defined.

(** X3: after a successful build, [--output=image-id] echoes the [Id] the
    daemon reports, [--output=image-name] echoes the first entry of the
    [RepoTags] the daemon reports - not the tag that was submitted - and
    [--output=dockerfile] echoes the composed text; each echoes once, after
    the submission. *)
Theorem build_success_outputs (util : Util) (from_ : string)
    (apt pip3 with_kubectl : option string) (name : string) (w : World)
    (image : Image) (image_name : string) (rest : list string)
    (Henv : from_env_result (docker w) = None)
    (Hbuild : images_build_result (docker w)
                (build_dockerfile util from_ apt pip3 with_kubectl)
                (submitted_tag name w) = inr image)
    (Htags : attrs_RepoTags image = image_name :: rest) :
  let dockerfile := build_dockerfile util from_ apt pip3 with_kubectl in
  let calls := build_calls name dockerfile w in
  build util from_ apt pip3 with_kubectl name false "image-id" w
  = (Ok tt, after w (drawn_after name w) (calls ++ [EvEcho (Some (attrs_Id image))]))
  /\ build util from_ apt pip3 with_kubectl name false "image-name" w
     = (Ok tt, after w (drawn_after name w) (calls ++ [EvEcho (Some image_name)]))
  /\ build util from_ apt pip3 with_kubectl name false "dockerfile" w
     = (Ok tt, after w (drawn_after name w) (calls ++ [EvEcho (Some dockerfile)])).
Proof.
  intros dockerfile calls. rewrite !(build_real _ _ _ _ _ _ _ _ Henv).
  fold dockerfile in Hbuild |- *. rewrite Hbuild, Htags.
  repeat split; reflexivity.
Qed.

Lemma build_success_outputs_witness :
  run (build Sample.util "ubuntu:18.04" None None None "tools:1.0" false "image-name")
    (Faulty.world Faulty.retagging)
  = [EvFromEnv;
     EvImagesBuild (build_dockerfile Sample.util "ubuntu:18.04" None None None)
       "tools:1.0";
     EvEcho (Some "mirror/tools:1.0")].
Proof.
  destruct (build_success_outputs Sample.util "ubuntu:18.04" None None None "tools:1.0"
              (Faulty.world Faulty.retagging)
              (mkImage "sha256:0123456789abcdef0123456789abcdef0123456789abcdef0123456789abcdef"
                 ["mirror/tools:1.0"; "tools:1.0"])
              "mirror/tools:1.0" ["tools:1.0"] eq_refl eq_refl eq_refl) as (_ & H & _).
  unfold run. rewrite H. reflexivity.
Defined.

(** X4: a run of [build] calls [click.echo] at most once - one message,
    which for [--output=dockerfile] is the whole text with all its lines -
    and not at all when it raises; a run that returns with one of the three
    [--output] choices calls it exactly once. *)
Theorem build_echoes_at_most_once (util : Util) (from_ : string)
    (apt pip3 with_kubectl : option string) (name : string) (dry_run : bool)
    (output : string) (rnd : nat -> N) (d : Docker) :
  let result := build util from_ apt pip3 with_kubectl name dry_run output (boot rnd d) in
  let printed := filter is_output (events (snd result)) in
  match fst result with
  | Raise _ => printed = []
  | Ok _ =>
      List.length printed <= 1
      /\ (In output ["image-id"; "image-name"; "dockerfile"] ->
          List.length printed = 1)
  end.
Proof.
  intros result printed. unfold printed, result. clear result printed.
  assert (Hone : forall i n t,
             In output ["image-id"; "image-name"; "dockerfile"] ->
             List.length (outputs output i n t) = 1).
  { intros i n t [<-|[<-|[<-|[]]]]; reflexivity. }
  destruct dry_run.
  - rewrite build_dry. cbn [fst snd after events boot app].
    rewrite filter_outputs. split; [apply outputs_length | apply Hone].
  - destruct (from_env_result d) as [e|] eqn:Henv.
    + rewrite (build_no_client util from_ apt pip3 with_kubectl name output
                 (boot rnd d) e Henv). reflexivity.
    + rewrite (build_real util from_ apt pip3 with_kubectl name output
                 (boot rnd d) Henv).
      destruct (images_build_result _ _ _) as [e|image];
        [cbn [fst snd after events boot app]; apply filter_output_build_calls|].
      destruct (attrs_RepoTags image) as [|image_name rest];
        [cbn [fst snd after events boot app]; apply filter_output_build_calls|].
      cbn [fst snd after events boot]. cbn [app].
      rewrite filter_app, filter_output_build_calls, filter_outputs. cbn [app].
      split; [apply outputs_length | apply Hone].
Qed.

(** X5: the tag under which [build] submits is never the sentinel [random]
    itself: the sentinel is always replaced by a generated name. *)
Theorem submitted_tag_is_never_sentinel (util : Util) (from_ : string)
    (apt pip3 with_kubectl : option string) (name : string) (dry_run : bool)
    (output : string) (rnd : nat -> N) (d : Docker) :
  Forall (fun submission => snd submission <> "random")
    (submitted
       (run (build util from_ apt pip3 with_kubectl name dry_run output) (boot rnd d))).
Proof.
  destruct (build_submits_dockerfile util from_ apt pip3 with_kubectl name dry_run
              output rnd d) as [ E | [ E | E ] ]; rewrite E; try constructor;
    [|constructor].
  cbn [snd]. unfold submitted_tag.
  destruct (String.eqb_spec name "random") as [_|Hn]; [discriminate | exact Hn].
Qed.

(** X6: the calls of [build] to the container runtime are, in order, at most
    one [docker.from_env] and then at most one [images.build]; it never
    queries the image list, and a dry run makes no call. *)
Theorem build_daemon_calls (util : Util) (from_ : string)
    (apt pip3 with_kubectl : option string) (name : string) (dry_run : bool)
    (output : string) (rnd : nat -> N) (d : Docker) :
  let dockerfile := build_dockerfile util from_ apt pip3 with_kubectl in
  let calls :=
    filter is_docker_call
      (run (build util from_ apt pip3 with_kubectl name dry_run output) (boot rnd d)) in
  (if dry_run then calls = []
   else calls = [EvFromEnv]
        \/ calls = [EvFromEnv;
                    EvImagesBuild dockerfile (submitted_tag name (boot rnd d))])
  /\ (from_env_result d = None -> dry_run = false ->
      calls = [EvFromEnv; EvImagesBuild dockerfile (submitted_tag name (boot rnd d))]).
Proof.
  intros dockerfile calls. unfold calls, run. clear calls.
  destruct dry_run.
  - rewrite build_dry. cbn [snd after events boot app].
    split; [apply docker_calls_outputs | discriminate].
  - destruct (from_env_result d) as [e|] eqn:Henv.
    + rewrite (build_no_client util from_ apt pip3 with_kubectl name output
                 (boot rnd d) e Henv).
      split; [now left | discriminate].
    + rewrite (build_real util from_ apt pip3 with_kubectl name output
                 (boot rnd d) Henv). fold dockerfile.
      assert (forall out,
                 filter is_docker_call out = [] ->
                 filter is_docker_call
                   (events (after (boot rnd d) (drawn_after name (boot rnd d))
                              (build_calls name dockerfile (boot rnd d) ++ out)))
                 = [EvFromEnv;
                    EvImagesBuild dockerfile (submitted_tag name (boot rnd d))]) as H.
      { intros out Hout. cbn [after events boot]. cbn [app].
        now rewrite filter_app, docker_calls_build_calls, Hout. }
      destruct (images_build_result _ _ _) as [e|image].
      * cbn [snd]. rewrite <- (List.app_nil_r (build_calls _ _ _)).
        rewrite (H [] eq_refl). split; [now right | reflexivity].
      * destruct (attrs_RepoTags image) as [|image_name rest]; cbn [snd].
        -- rewrite <- (List.app_nil_r (build_calls _ _ _)).
           rewrite (H [] eq_refl). split; [now right | reflexivity].
        -- rewrite (H _ (docker_calls_outputs _ _ _ _)).
           split; [now right | reflexivity].
Qed.

(* ================================================================= *)
(** * Further properties of [list_] *)

(** X7: [list_] never builds an image and never draws a UUID; its calls to
    the container runtime are one [docker.from_env] and, when that
    succeeds, one [images.list] filtered by the marker label. *)
Theorem list_daemon_calls (util : Util) (short : bool) (rnd : nat -> N) (d : Docker) :
  let w' := snd (list_ util short (boot rnd d)) in
  drawn w' = 0
  /\ filter is_uuid_draw (events w') = []
  /\ submitted (events w') = []
  /\ match from_env_result d with
     | Some _ => filter is_docker_call (events w') = [EvFromEnv]
     | None =>
         filter is_docker_call (events w')
         = [EvFromEnv; EvImagesList [get_dugaire_image_label util None]]
     end.
Proof.
  intros w'. unfold w'. clear w'.
  destruct (from_env_result d) as [e|] eqn:Henv.
  - rewrite (list_no_client util short (boot rnd d) e Henv). repeat split.
  - destruct (images_list_result d [get_dugaire_image_label util None])
      as [e|images] eqn:Hlist.
    + rewrite (list_query_fails util short (boot rnd d) e Henv Hlist). repeat split.
    + rewrite (list_run util short (boot rnd d) images Henv Hlist).
      destruct images; repeat split.
Qed.

(** X8: when the query for images raises, [list_] raises the same exception
    and prints neither a table nor the none-found message. *)
Theorem list_query_error_is_propagated (util : Util) (short : bool) (w : World)
    (e : exn)
    (Henv : from_env_result (docker w) = None)
    (Hlist : images_list_result (docker w) [get_dugaire_image_label util None]
             = inl e) :
  let label := get_dugaire_image_label util None in
  list_ util short w = (Raise e, after w (drawn w) [EvFromEnv; EvImagesList [label]])
  /\ filter is_output [EvFromEnv; EvImagesList [label]] = [].
Proof.
  intros label. split; [now apply list_query_fails | reflexivity].
Qed.

Lemma list_query_error_is_propagated_witness :
  outcome (list_ Sample.util true) (Faulty.world Faulty.list_fails)
  = Raise (DockerError "query failed")
  /\ run (list_ Sample.util true) (Faulty.world Faulty.list_fails)
     = [EvFromEnv; EvImagesList ["builtwith=dugaire"]].
Proof.
  destruct (list_query_error_is_propagated Sample.util true
              (Faulty.world Faulty.list_fails) (DockerError "query failed")
              eq_refl eq_refl) as (H & _).
  unfold outcome, run. rewrite H. split; reflexivity.
Defined.

(** X9: when no client can be had, a build that is not a dry run and a
    listing both raise the exception of [docker.from_env] at once: nothing
    is drawn, submitted, queried or printed. *)
Theorem unreachable_daemon_stops_both_commands (util : Util) (from_ : string)
    (apt pip3 with_kubectl : option string) (name output : string) (short : bool)
    (w : World) (e : exn)
    (Henv : from_env_result (docker w) = Some e) :
  build util from_ apt pip3 with_kubectl name false output w
  = (Raise e, after w (drawn w) [EvFromEnv])
  /\ list_ util short w = (Raise e, after w (drawn w) [EvFromEnv]).
Proof.
  split; [now apply build_no_client | now apply list_no_client].
Qed.

Lemma unreachable_daemon_stops_both_commands_witness :
  run (build Sample.util "ubuntu:18.04" None None None "random" false "image-id")
    (Faulty.world Sample.no_daemon) = [EvFromEnv]
  /\ run (list_ Sample.util true) (Faulty.world Sample.no_daemon) = [EvFromEnv].
Proof.
  destruct (unreachable_daemon_stops_both_commands Sample.util "ubuntu:18.04" None None
              None "random" "image-id" true (Faulty.world Sample.no_daemon)
              (DockerError "connection refused") eq_refl) as (H1 & H2).
  unfold run. rewrite H1, H2. split; reflexivity.
Defined.

(** X12: the identifier [list_] shows in short mode has at most twelve
    characters and is never longer than the identifier itself; an
    identifier that holds no [sha256:] is simply cut to twelve. *)
Theorem shown_id_bounds (image_id : string) :
  String.length (shown_id true image_id) <= 12
  /\ String.length (shown_id true image_id) <= String.length image_id
  /\ (contains "sha256:" image_id = false ->
      shown_id true image_id = take 12 image_id).
Proof.
  unfold shown_id.
  assert (Hr : String.length (replace "sha256:" "" image_id) <= String.length image_id)
    by apply (replace_from_delete_length "sha256:" image_id 0).
  rewrite take_length. split; [lia|]. split; [lia|].
  intros H. rewrite replace_absent; [reflexivity | discriminate | exact H].
Qed.

(** X13: for an identifier in the runtime's format, [sha256:] followed by
    what [list_] shows in short mode is a prefix of the full identifier, and
    what is shown consists of hex digits only. *)
Theorem short_id_abbreviates_digest (image_id : string)
    (Hid : is_docker_id image_id = true) :
  prefix ("sha256:" ++ shown_id true image_id) image_id = true
  /\ String.length (shown_id true image_id) = 12
  /\ all_chars Uuid.is_hex (shown_id true image_id) = true.
Proof.
  destruct (docker_id_short_form image_id Hid) as (Hlead & Hform & Hlen).
  rewrite (shown_id_short_form image_id Hlead), Hform in *.
  unfold is_docker_id in Hid.
  apply andb_true_iff in Hid as [Hid Hhex]. apply andb_true_iff in Hid as [Hp _].
  apply prefix_inv in Hp as [r ->].
  change (drop 7 ("sha256:" ++ r)) with r in *.
  split; [|split; [exact Hlen | now apply take_all_chars]].
  destruct (take_rest 12 r) as [rest Hrest].
  rewrite Hrest at 2. rewrite <- !app_assoc. apply prefix_app.
Qed.

Lemma short_id_abbreviates_digest_witness :
  prefix ("sha256:" ++ shown_id true (Image_id Sample.image1)) (Image_id Sample.image1)
  = true
  /\ String.length (shown_id true (Image_id Sample.image1)) = 12
  /\ Py.all_chars Uuid.is_hex (shown_id true (Image_id Sample.image1)) = true.
Proof. exact (short_id_abbreviates_digest (Image_id Sample.image1) eq_refl). Defined.

(* ================================================================= *)
(** * Further properties of the Composer *)


(** X11: distinct values of [--with-kubectl] give distinct download URLs;
    in particular no version string yields the URL of [latest]. *)
Theorem kubectl_url_injective (v1 v2 : string) :
  kubectl_url v1 = kubectl_url v2 -> v1 = v2.
Proof.
  assert (Hmix : forall v,
             kubectl_latest_url
             <> "https://storage.googleapis.com/kubernetes-release/release/v" ++ v
                ++ "/bin/linux/amd64/kubectl").
  { intros v H.
    change kubectl_latest_url
      with ("https://storage.googleapis.com/kubernetes-release/release/"
            ++ "$(curl -s https://storage.googleapis.com/kubernetes-release/release/stable.txt)/bin/linux/amd64/kubectl")
      in H.
    change ("https://storage.googleapis.com/kubernetes-release/release/v" ++ v
            ++ "/bin/linux/amd64/kubectl")
      with ("https://storage.googleapis.com/kubernetes-release/release/"
            ++ String "v" (v ++ "/bin/linux/amd64/kubectl")) in H.
    apply app_inv_head in H. discriminate H. }
  unfold kubectl_url.
  destruct (String.eqb_spec v1 "latest") as [->|H1],
    (String.eqb_spec v2 "latest") as [->|H2]; cbn [negb]; intros H.
  - reflexivity.
  - now apply Hmix in H.
  - symmetry in H. now apply Hmix in H.
  - apply app_inv_head in H. now apply app_inv_tail in H.
Qed.

Lemma kubectl_url_injective_witness :
  kubectl_url "1.17.0" <> kubectl_url "latest"
  /\ kubectl_url "1.17.0" <> kubectl_url "1.18.0"
  /\ kubectl_url "latest" <> kubectl_url "Latest".
Proof.
  repeat split; intros H; apply kubectl_url_injective in H; discriminate H.
Defined.

(** X14: options only append.  The Dockerfile for a base image alone is a
    prefix of every Dockerfile for that base image, and giving [--pip3] or
    [--with-kubectl] leaves everything rendered before it untouched. *)
Theorem options_only_append (util : Util) (from_ : string)
    (apt pip3 with_kubectl : option string) :
  prefix (build_dockerfile util from_ None None None)
    (build_dockerfile util from_ apt pip3 with_kubectl) = true
  /\ prefix (build_dockerfile util from_ apt None None)
       (build_dockerfile util from_ apt pip3 with_kubectl) = true
  /\ prefix (build_dockerfile util from_ apt pip3 None)
       (build_dockerfile util from_ apt pip3 with_kubectl) = true.
Proof.
  unfold build_dockerfile.
  destruct apt as [[|? ?]|], pip3 as [[|? ?]|], with_kubectl as [[|? ?]|];
    cbn [if_truthy String.eqb];
    repeat split; repeat (apply prefix_refl || apply prefix_app_l).
Qed.

(** X15: what [test_build] expects.  A successful build with the default
    [--output] echoes the identifier the daemon reports; when that
    identifier is in the runtime's format the echoed line holds [sha256:]. *)
Theorem default_output_shows_digest (util : Util) (from_ : string)
    (apt pip3 with_kubectl : option string) (name : string) (w : World)
    (image : Image) (image_name : string) (rest : list string)
    (Henv : from_env_result (docker w) = None)
    (Hbuild : images_build_result (docker w)
                (build_dockerfile util from_ apt pip3 with_kubectl)
                (submitted_tag name w) = inr image)
    (Htags : attrs_RepoTags image = image_name :: rest)
    (Hid : is_docker_id (attrs_Id image) = true) :
  let dockerfile := build_dockerfile util from_ apt pip3 with_kubectl in
  exists line,
    build util from_ apt pip3 with_kubectl name false output_default w
    = (Ok tt, after w (drawn_after name w)
                (build_calls name dockerfile w ++ [EvEcho (Some line)]))
    /\ line = attrs_Id image
    /\ contains "sha256:" line = true.
Proof.
  intros dockerfile. exists (attrs_Id image).
  destruct (build_success_outputs util from_ apt pip3 with_kubectl name w image
              image_name rest Henv Hbuild Htags) as (H & _).
  split; [exact H|]. split; [reflexivity|].
  unfold is_docker_id in Hid.
  apply andb_true_iff in Hid as [Hid _]. apply andb_true_iff in Hid as [Hp _].
  apply prefix_inv in Hp as [r ->]. apply (contains_intro "" "sha256:" r).
Qed.

Lemma default_output_shows_digest_witness :
  run (build Sample.util from_default (Some "curl,nano") None None "tools:1.0" false
         output_default) (Sample.world 7 [])
  = [EvFromEnv;
     EvImagesBuild
       (build_dockerfile Sample.util "ubuntu:18.04" (Some "curl,nano") None None)
       "tools:1.0";
     EvEcho (Some "sha256:0123456789abcdef0123456789abcdef0123456789abcdef0123456789abcdef")].
Proof.
  destruct (default_output_shows_digest Sample.util from_default (Some "curl,nano") None
              None "tools:1.0" (Sample.world 7 [])
              (mkImage "sha256:0123456789abcdef0123456789abcdef0123456789abcdef0123456789abcdef"
                 ["tools:1.0"])
              "tools:1.0" [] eq_refl eq_refl eq_refl eq_refl) as (line & H & -> & _).
  unfold run. rewrite H. reflexivity.
Defined.
